(** * Netflix dashboard ([app.py]): the render cycle, its loader and its router

    [app.py] is a Streamlit script.  Streamlit re-executes it from top to
    bottom on every user interaction; one execution is a render cycle.  The
    script emits a title, loads a CSV through a memoised loader, offers a
    five-way navigation radio in the sidebar and renders the selected page;
    the load, the radio and the pages sit in one [try] whose handler prints
    an error box.

    The embedding is shallow.  A cycle is a computation in a small monad that
    reads an environment (the file system, the user's radio choice, and which
    data or chart calls raise), threads a world (Streamlit's memo cache, a
    count of storage reads, the current layout container, the elements
    emitted so far) and returns a value or a raised Python exception.

    Calls that only emit literal text ([st.title], [st.header],
    [st.markdown], [st.write], [st.info], [st.metric], [st.error] and the
    sidebar widgets) are total here.  Calls into pandas, matplotlib and
    seaborn, and the Streamlit calls that serialise a frame or a figure
    ([st.dataframe], [st.table], [st.pyplot]) may raise: the environment says
    so per source line. *)

From Stdlib Require Import String List ZArith Lia.
Import ListNotations.
Open Scope string_scope.
Open Scope list_scope.

(** ** Data *)

(** A cell of a frame, an index label or a column label. *)
Inductive cell : Type :=
| CInt (z : Z)
| CStr (s : string)
| CNaN.

(** A pandas DataFrame: row labels, column labels, rows of cells. *)
Record DataFrame : Type := mkDataFrame {
  index : list cell;
  columns : list cell;
  data : list (list cell)
}.

(** [df.head(n)] *)
Definition head (n : nat) (df : DataFrame) : DataFrame :=
  {| index := firstn n (index df);
     columns := columns df;
     data := firstn n (data df) |}.

(** A Python dict literal keeps insertion order: an association list. *)
Definition dict (K V : Type) : Type := list (K * V).

Definition keys {K V : Type} (d : dict K V) : list K := map fst d.
Definition values {K V : Type} (d : dict K V) : list V := map snd d.

Fixpoint get {V : Type} (k : string) (d : dict string V) : option V :=
  match d with
  | [] => None
  | (k', v) :: d' => if String.eqb k k' then Some v else get k d'
  end.

(** Keys of the inner dicts, each once, in order of first appearance. *)
Fixpoint union_keys (seen : list string) (ks : list string) : list string :=
  match ks with
  | [] => seen
  | k :: ks' =>
      if existsb (String.eqb k) seen then union_keys seen ks'
      else union_keys (seen ++ [k]) ks'
  end.

(** [pd.DataFrame(d)] for a dict of dicts [d]: outer keys are the columns,
    inner keys the index, a missing entry is NaN. *)
Definition DataFrame_of_dict (d : dict string (dict string cell)) : DataFrame :=
  let idx := union_keys [] (concat (map (fun kv => keys (snd kv)) d)) in
  {| index := map CStr idx;
     columns := map CStr (keys d);
     data := map (fun r =>
               map (fun kv => match get r (snd kv) with
                              | Some c => c
                              | None => CNaN
                              end) d) idx |}.

(** Column [j] of a list of rows. *)
Definition column_at (j : nat) (rows : list (list cell)) : list cell :=
  map (fun r => nth j r CNaN) rows.

(** [df.T] *)
Definition transpose (df : DataFrame) : DataFrame :=
  {| index := columns df;
     columns := index df;
     data := map (fun j => column_at j (data df)) (seq 0 (length (columns df))) |}.

(** [df[name]]: the cells of the column labelled [name], if there is one. *)
Fixpoint position (name : string) (cs : list cell) : option nat :=
  match cs with
  | [] => None
  | CStr s :: cs' =>
      if String.eqb name s then Some 0%nat else option_map S (position name cs')
  | _ :: cs' => option_map S (position name cs')
  end.

Definition column (name : string) (df : DataFrame) : option (list cell) :=
  option_map (fun j => column_at j (data df)) (position name (columns df)).

(** A matplotlib figure with the seaborn plots drawn on its axes. *)
Inductive plot : Type :=
| Bar (x y : list cell) (palette : string)
| Line (x y : list cell) (marker : string).

Record Figure : Type := mkFigure {
  figsize : option (Z * Z);
  plots : list plot;
  fig_title : option string
}.

(** ** Exceptions *)

(** A raised exception: an instance of [Exception], or of [BaseException]
    only ([KeyboardInterrupt], [SystemExit], [GeneratorExit]). *)
Inductive exn : Type :=
| Exc (cls msg : string)
| BaseExc (cls msg : string).

(** [str(e)] *)
Definition str (e : exn) : string :=
  match e with
  | Exc _ msg => msg
  | BaseExc _ msg => msg
  end.

(** [isinstance(e, Exception)] *)
Definition is_Exception (e : exn) : bool :=
  match e with
  | Exc _ _ => true
  | BaseExc _ _ => false
  end.

Inductive outcome (A : Type) : Type :=
| Ok (a : A)
| Raise (e : exn).
Arguments Ok {A} a.
Arguments Raise {A} e.

(** ** The page *)

Inductive container : Type :=
| Main
| Sidebar
| Column (i n : nat).

Inductive value : Type :=
| VInt (z : Z)
| VStr (s : string).

Inductive widget : Type :=
| Title (s : string)
| Header (s : string)
| Markdown (s : string)
| Write (s : string)
| Info (s : string)
| Error (s : string)
| Metric (label : string) (v : value)
| Radio (label : string) (options : list string)
| Dataframe (df : DataFrame)
| Table (df : DataFrame)
| Pyplot (fig : Figure).

Definition element : Type := container * widget.

(** ** Environment and world *)

(** What is stored at a path. *)
Inductive source_file : Type :=
| Absent
| Unreadable
| Malformed (why : string)
| Parses (df : DataFrame).

Record env : Type := mkEnv {
  fs : string -> source_file;      (* the file system *)
  choice : nat;                    (* index the user selected in the radio *)
  faults : nat -> option exn       (* the call at this source line raises *)
}.

Record world : Type := mkWorld {
  page_config : option (string * string);  (* st.set_page_config *)
  cache : option DataFrame;        (* st.cache_data entry of load_data *)
  reads : nat;                     (* executions of pd.read_csv so far *)
  cur : container;                 (* target of st.<element> calls *)
  screen : list element            (* elements emitted this cycle *)
}.

Definition set_screen (s : list element) (w : world) : world :=
  mkWorld (page_config w) (cache w) (reads w) (cur w) s.
Definition set_cur (c : container) (w : world) : world :=
  mkWorld (page_config w) (cache w) (reads w) c (screen w).
Definition set_cache (d : option DataFrame) (w : world) : world :=
  mkWorld (page_config w) d (reads w) (cur w) (screen w).
Definition tick_reads (w : world) : world :=
  mkWorld (page_config w) (cache w) (S (reads w)) (cur w) (screen w).
Definition set_page_config (t l : string) (w : world) : world :=
  mkWorld (Some (t, l)) (cache w) (reads w) (cur w) (screen w).

(** ** The monad *)

Definition M (A : Type) : Type := env -> world -> outcome A * world.

Definition ret {A : Type} (a : A) : M A := fun _ w => (Ok a, w).

Definition bind {A B : Type} (m : M A) (k : A -> M B) : M B :=
  fun e w =>
    match m e w with
    | (Ok a, w') => k a e w'
    | (Raise x, w') => (Raise x, w')
    end.

Declare Scope script_scope.
Delimit Scope script_scope with script.
Notation "x <- m ;; k" := (bind m (fun x => k))
  (at level 100, m at next level, right associativity) : script_scope.
Notation "m ;; k" := (bind m (fun _ => k))
  (at level 100, right associativity) : script_scope.
Open Scope script_scope.

(** [raise e] *)
Definition raise {A : Type} (x : exn) : M A := fun _ w => (Raise x, w).

(** A call that may raise: the environment decides per source line. *)
Definition call {A : Type} (line : nat) (m : M A) : M A :=
  fun e w =>
    match faults e line with
    | Some x => (Raise x, w)
    | None => m e w
    end.

(** [try: body / except Exception as e: handler(e)] *)
Definition try_except_Exception (body : M unit) (handler : exn -> M unit) : M unit :=
  fun e w =>
    match body e w with
    | (Ok tt, w') => (Ok tt, w')
    | (Raise x, w') =>
        if is_Exception x then handler x e w' else (Raise x, w')
    end.

(** [with c: body]: [c] is the target of [st.<element>] inside [body]; the
    previous target is restored on exit, also when [body] raises. *)
Definition with_ {A : Type} (c : container) (body : M A) : M A :=
  fun e w =>
    let '(r, w') := body e (set_cur c w) in
    (r, set_cur (cur w) w').

(** ** Streamlit, pandas, matplotlib and seaborn calls *)

(** [c.<element>(...)]: emit into container [c]. *)
Definition emit_in (c : container) (x : widget) : M unit :=
  fun _ w => (Ok tt, set_screen (screen w ++ [(c, x)]) w).

(** [st.<element>(...)]: emit into the current container. *)
Definition emit (x : widget) : M unit :=
  fun e w => emit_in (cur w) x e w.

Definition st_set_page_config (page_title layout : string) : M unit :=
  fun _ w => (Ok tt, set_page_config page_title layout w).

(** [st.columns(n)]: the [n] column containers. *)
Definition st_columns (n : nat) : M (list container) :=
  ret (map (fun i => Column i n) (seq 0 n)).

(** [st.sidebar.radio(label, options)]: the radio is drawn in the sidebar
    and the selected option is returned; the selection starts at the first
    option and is always one of the options. *)
Definition st_sidebar_radio (label : string) (options : list string) : M string :=
  fun e w =>
    (emit_in Sidebar (Radio label options);;
     ret (nth (choice e) options (hd "" options))) e w.

(** [pd.read_csv(path)] *)
Definition pd_read_csv (path : string) : M DataFrame :=
  fun e w =>
    match fs e path with
    | Absent =>
        (Raise (Exc "FileNotFoundError"
                  ("[Errno 2] No such file or directory: '" ++ path ++ "'")%string),
         tick_reads w)
    | Unreadable =>
        (Raise (Exc "PermissionError"
                  ("[Errno 13] Permission denied: '" ++ path ++ "'")%string),
         tick_reads w)
    | Malformed why =>
        (Raise (Exc "ParserError" why), tick_reads w)
    | Parses df => (Ok df, tick_reads w)
    end.

(** [@st.cache_data] on a function without arguments: one cache entry, filled
    by the first call that returns, kept for the life of the process (no
    [ttl], no [max_entries]); a call that raises stores nothing. *)
Definition st_cache_data (f : M DataFrame) : M DataFrame :=
  fun e w =>
    match cache w with
    | Some df => (Ok df, w)
    | None =>
        match f e w with
        | (Ok df, w') => (Ok df, set_cache (Some df) w')
        | (Raise x, w') => (Raise x, w')
        end
    end.

(** [plt.subplots(figsize=...)]: a figure with empty axes. *)
Definition plt_subplots (size : option (Z * Z)) : M Figure :=
  ret (mkFigure size [] None).

(** [sns.barplot(x=, y=, palette=, ax=ax)] *)
Definition sns_barplot (x y : list cell) (palette : string) (fig : Figure) : M Figure :=
  ret (mkFigure (figsize fig) (plots fig ++ [Bar x y palette]) (fig_title fig)).

(** [sns.lineplot(x=, y=, marker=, ax=ax)] *)
Definition sns_lineplot (x y : list cell) (marker : string) (fig : Figure) : M Figure :=
  ret (mkFigure (figsize fig) (plots fig ++ [Line x y marker]) (fig_title fig)).

(** [plt.title(s)]: titles the current axes, those of the latest figure. *)
Definition plt_title (s : string) (fig : Figure) : M Figure :=
  ret (mkFigure (figsize fig) (plots fig) (Some s)).

(** ** Literal text of the script *)

(* app.py, line 16 *)
Definition intro_text : string :=
"
This dashboard analyzes the Netflix content library using Economic principles to understand content segmentation and trends.
".

(* app.py, line 41 *)
Definition overview_notes : string :=
"
        *   **Supply Balance**: Movies significantly outnumber TV Shows (70% vs 30%). This suggests a strategy focused on high-volume, single-session viewing to lower the entry barrier for casual users.
        *   **Data Integrity**: The dataset is fully clean with no missing values, ensuring that strategic decisions based on this analysis are grounded in reliable data.
        ".

(* app.py, line 59 *)
Definition split_principle : string :=
"**Economic Principle**: This reflects resource allocation. A higher supply of movies may indicate a lower production cost per title compared to multi-season series, while TV shows aim for sustained engagement and reduced churn.".

(* app.py, line 67 *)
Definition genre_strategy : string :=
"**Strategy**: International content and Dramas dominate, highlighting a Global Diversification strategy to capture market share across different cultural demographics.".

(* app.py, line 76 *)
Definition trend_interpretation : string :=
"
        **Economic Interpretation**: 
        The exponential growth in titles until 2018 represents an aggressive **Market Penetration** phase. The recent stabilization suggests a transition from 'Supply-side Push' to a more targeted 'Nuanced Demand' strategy, focusing on quality and lifecycle retention.
        ".

(* app.py, line 84 *)
Definition segmentation_intro : string :=
"
        ### Market Segmentation Results
        The K-Means algorithm identified 4 distinct content segments based on year, duration, and rating:
        ".

(* app.py, line 97 *)
Definition segmentation_insights : string :=
"
        **Strategic Business Insights**:
        1.  **Cluster 0 & 3 (Movies)**: Drive initial user acquisition and provide library depth.
        2.  **Cluster 2 (TV Shows)**: Vital for **Customer Lifetime Value (CLTV)**. Multi-season shows reduce churn and build brand loyalty.
        3.  **Cluster 1**: Represents testing of new concepts via shorter form content, allowing for efficient experimentation with user preferences.
        ".

(* app.py, line 113 *)
Definition model_interpretation : string :=
"
        **Model Interpretation**:
        *   The low **R-squared (14%)** indicates that content rating is a poor predictor of duration.
        *   **Business Implication**: Netflix does not restrict content length based on target age group. Instead, duration is likely driven by **Creative Intent**, **Genre Conventions**, and **Production Budgets**. 
        *   This flexibility allows creators to maximize 'Consumer Utility' without rigid format constraints.
        ".

(* app.py, line 123 *)
Definition recommendations_text : string :=
"
        Based on the full analysis, here are the core economic recommendations:
        
        #### 1. Optimization of Content Mix
        *   **Acquisition**: Continue leveraging Cluster 0 (International Movies) for rapid library expansion in emerging markets.
        *   **Retention**: Pivot investment towards Cluster 2 (TV Shows) to increase binge-watching cycles and subscription stability.
        
        #### 2. Risk Diversification
        *   Maintaining a high volume of 'International' titles serves as a hedge against market-specific saturation or regulatory shifts in any single country.
        
        #### 3. Data-Driven Decisions
        *   Since ratings don't dictate duration, Netflix should continue allowing creators to tailor runtimes to storytelling needs, as this 'Product Differentiation' is a key competitive advantage over traditional linear TV.
        
        #### 4. Subscriber Lifecycle Management
        *   Use broad-appeal movies (Clusters 0, 3) for the **Acquisition Phase**.
        *   Deploy compelling multi-season series (Cluster 2) for the **Retention Phase**.
        ".

(* app.py, line 15 *)
Definition title_text : string :=
  "🎬 Netflix Content Strategy & Business Analysis".

(* app.py, line 34 *)
Definition overview_header : string :=
  "📊 Dataset Overview".

(* app.py, line 50 *)
Definition exploratory_header : string :=
  "📈 Exploratory Data Analysis & Economic Insights".

(* app.py, line 82 *)
Definition clustering_header : string :=
  "🧩 K-Means Content Segmentation".

(* app.py, line 105 *)
Definition prediction_header : string :=
  "📉 Linear Regression: Rating vs Duration".

(* app.py, line 121 *)
Definition recommendations_header : string :=
  "🎯 Strategic Recommendations for Netflix".

(** ** The script, [app.py] *)

(** Lines 21-24: the memoised loader. *)
Definition load_data : M DataFrame :=
  st_cache_data
    (df <- call 23 (pd_read_csv "netflix_clean.csv");;
     ret df).

(** Line 31: the options of the navigation radio. *)
Definition pages : list string :=
  ["Overview"; "Exploratory Analysis"; "Content Clustering";
   "Duration Prediction"; "Strategic Recommendations"].

(** The five arms of the [if]/[elif] chain of lines 33-139. *)
Inductive branch : Type :=
| Overview
| Exploratory_Analysis
| Content_Clustering
| Duration_Prediction
| Strategic_Recommendations.

Definition unpack_error {A : Type} : M A :=
  raise (Exc "ValueError" "not enough values to unpack").

(** Lines 34-47. *)
Definition overview (df : DataFrame) : M unit :=
  emit (Header overview_header);;
  cols <- st_columns 3;;
  match cols with
  | [col1; col2; col3] =>
      emit_in col1 (Metric "Total Titles" (VInt 8706));;
      emit_in col2 (Metric "Movies" (VInt 6128));;
      emit_in col3 (Metric "TV Shows" (VInt 2578));;
      emit (Write "### Business Meaning of Data Overview");;
      emit (Markdown overview_notes);;
      emit (Write "### Sample Data");;
      call 47 (emit (Dataframe (head 10 df)))
  | _ => unpack_error
  end.

(** Line 63. *)
Definition genre_data : dict string Z :=
  [("International Movies", 2752); ("Dramas", 2427); ("Comedies", 1674);
   ("International TV Shows", 1328); ("Documentaries", 869);
   ("Action & Adventure", 859); ("Independent Movies", 756);
   ("TV Dramas", 739); ("Children & Family Movies", 641);
   ("Romantic Movies", 616)]%Z.

(** Line 71. *)
Definition release_data : dict Z Z :=
  [(2010, 189); (2012, 229); (2014, 343); (2015, 548); (2016, 878);
   (2017, 1015); (2018, 1140); (2019, 1030); (2020, 953)]%Z.

(** Lines 50-79. *)
Definition exploratory : M unit :=
  emit (Header exploratory_header);;
  cols <- st_columns 2;;
  match cols with
  | [col1; col2] =>
      with_ col1
        (emit (Write "#### Movies vs TV Shows");;
         fig <- call 56 (plt_subplots None);;
         fig <- call 57 (sns_barplot [CStr "TV Show"; CStr "Movie"]
                           [CInt 2578; CInt 6128] "viridis" fig);;
         call 58 (emit (Pyplot fig));;
         emit (Info split_principle));;
      with_ col2
        (emit (Write "#### Top 10 Genres");;
         fig <- call 64 (plt_subplots None);;
         fig <- call 65 (sns_barplot (map CInt (values genre_data))
                           (map CStr (keys genre_data)) "magma" fig);;
         call 66 (emit (Pyplot fig));;
         emit (Info genre_strategy));;
      emit (Write "#### Content Release Trend (Supply Trend)");;
      fig <- call 72 (plt_subplots (Some (12, 5)%Z));;
      fig <- call 73 (sns_lineplot (map CInt (keys release_data))
                        (map CInt (values release_data)) "o" fig);;
      fig <- call 74 (plt_title "Content Supply Trend Over Time" fig);;
      call 75 (emit (Pyplot fig));;
      emit (Markdown trend_interpretation)
  | _ => unpack_error
  end.

(** Lines 89-94. *)
Definition cluster_summary : dict string (dict string cell) :=
  [("Cluster 0", [("Year", CInt 2014); ("Duration", CStr "106 min");
                  ("Type", CStr "Movie"); ("Segment", CStr "Mainstream Movies")]);
   ("Cluster 1", [("Year", CInt 2016); ("Duration", CStr "90 min");
                  ("Type", CStr "Movie"); ("Segment", CStr "Recent Indie/Short Films")]);
   ("Cluster 2", [("Year", CInt 2017); ("Duration", CStr "1.7 Seasons");
                  ("Type", CStr "TV Show"); ("Segment", CStr "Modern Episodic Content")]);
   ("Cluster 3", [("Year", CInt 1985); ("Duration", CStr "112 min");
                  ("Type", CStr "Movie"); ("Segment", CStr "Classic Library Content")])].

(** Lines 82-102. *)
Definition clustering : M unit :=
  emit (Header clustering_header);;
  emit (Markdown segmentation_intro);;
  call 95 (emit (Table (transpose (DataFrame_of_dict cluster_summary))));;
  emit (Markdown segmentation_insights).

(** Lines 105-118. *)
Definition prediction : M unit :=
  emit (Header prediction_header);;
  cols <- st_columns 2;;
  match cols with
  | [col1; col2] =>
      with_ col1 (emit (Metric "R² Score" (VStr "0.1407")));;
      with_ col2 (emit (Metric "Mean Squared Error" (VStr "2264.50")));;
      emit (Markdown model_interpretation)
  | _ => unpack_error
  end.

(** Lines 121-139. *)
Definition recommendations : M unit :=
  emit (Header recommendations_header);;
  emit (Markdown recommendations_text).

(** Lines 33, 49, 81, 104, 120: the chain of string comparisons, with the
    body of each arm abstracted; there is no [else]. *)
Definition router (arm : branch -> M unit) (page : string) : M unit :=
  if String.eqb page "Overview" then arm Overview
  else if String.eqb page "Exploratory Analysis" then arm Exploratory_Analysis
  else if String.eqb page "Content Clustering" then arm Content_Clustering
  else if String.eqb page "Duration Prediction" then arm Duration_Prediction
  else if String.eqb page "Strategic Recommendations" then arm Strategic_Recommendations
  else ret tt.

(** The bodies of the arms. *)
Definition view (df : DataFrame) (b : branch) : M unit :=
  match b with
  | Overview => overview df
  | Exploratory_Analysis => exploratory
  | Content_Clustering => clustering
  | Duration_Prediction => prediction
  | Strategic_Recommendations => recommendations
  end.

(** Lines 33-139. *)
Definition render_page (page : string) (df : DataFrame) : M unit :=
  router (view df) page.

(** Lines 27-139: the body of the [try]. *)
Definition dashboard : M unit :=
  df <- load_data;;
  emit_in Sidebar (Header "Navigation");;
  page <- st_sidebar_radio "Go to" pages;;
  render_page page df.

(** Lines 141-142: the handler. *)
Definition on_error (e : exn) : M unit :=
  emit (Error ("Error loading dashboard: " ++ str e)%string).

(** Lines 13-18: what runs before the [try]. *)
Definition preamble : M unit :=
  st_set_page_config "Netflix Business Analysis" "wide";;
  emit (Title title_text);;
  emit (Markdown intro_text).

(** The whole module. *)
Definition script : M unit :=
  preamble;;
  try_except_Exception dashboard on_error.

(** One render cycle: the script runs on an empty page; the memo cache and
    the read count belong to the process and carry over. *)
Definition fresh (w : world) : world :=
  mkWorld None (cache w) (reads w) Main [].

Definition cycle (e : env) (w : world) : outcome unit * world :=
  script e (fresh w).

(** A process that has just started. *)
Definition boot : world := mkWorld None None 0 Main [].

(** ** Reading a rendered page *)


Definition errors_of (s : list element) : list string :=
  flat_map (fun x => match snd x with Error m => [m] | _ => [] end) s.
Definition metrics_of (s : list element) : list (string * value) :=
  flat_map (fun x => match snd x with Metric l v => [(l, v)] | _ => [] end) s.
Definition previews_of (s : list element) : list DataFrame :=
  flat_map (fun x => match snd x with Dataframe d => [d] | _ => [] end) s.
Definition tables_of (s : list element) : list DataFrame :=
  flat_map (fun x => match snd x with Table d => [d] | _ => [] end) s.
Definition figures_of (s : list element) : list Figure :=
  flat_map (fun x => match snd x with Pyplot f => [f] | _ => [] end) s.
Definition radios_of (s : list element) : list (list string) :=
  flat_map (fun x => match snd x with Radio _ o => [o] | _ => [] end) s.


(** Environments used as test inputs. *)
Definition no_faults : nat -> option exn := fun _ => None.

Definition sample : DataFrame :=
  mkDataFrame
    (map CInt [0; 1; 2; 3; 4; 5; 6; 7; 8; 9; 10; 11]%Z)
    [CStr "type"; CStr "listed_in"; CStr "release_year"; CStr "duration"; CStr "rating"]
    (map (fun i => [CStr "Movie"; CStr "Dramas"; CInt (2000 + i); CInt (90 + i); CStr "PG"])
       [0; 1; 2; 3; 4; 5; 6; 7; 8; 9; 10; 11]%Z).

Definition disk (f : source_file) : string -> source_file :=
  fun path => if String.eqb path "netflix_clean.csv" then f else Absent.

(** * Notions used in the statements *)

(** ** Frames: what a computation leaves alone *)

(** [m] respects [P]: [P] relates the world before any run of [m] to the
    world after it, whether [m] returns or raises. *)
Definition respects (P : world -> world -> Prop) {A : Type} (m : M A) : Prop :=
  forall e w, P w (snd (m e w)).

(** The memo cache and the read count are untouched. *)
Definition same_store (w w' : world) : Prop :=
  cache w' = cache w /\ reads w' = reads w.

(** The page only grows, by elements none of which is an error box; the
    current container and the page configuration are as before. *)
Definition paints (w w' : world) : Prop :=
  cur w' = cur w /\ page_config w' = page_config w /\
  exists s, screen w' = screen w ++ s /\ errors_of s = [].

(** ** The load, the navigation value and the page around the router *)

(** What the load of a cycle started in world [w] returns. *)
Definition loaded (e : env) (w : world) : outcome DataFrame :=
  fst (load_data e w).

(** The navigation value of the cycle: what the radio of line 31 returns. *)
Definition navigation (e : env) : string := nth (choice e) pages (hd "" pages).

Definition config : option (string * string) :=
  Some ("Netflix Business Analysis", "wide").

(** The page as the preamble leaves it. *)
Definition masthead : list element :=
  [(Main, Title title_text); (Main, Markdown intro_text)].

(** What is on the page when the router starts. *)
Definition chrome : list element :=
  [(Main, Title title_text); (Main, Markdown intro_text);
   (Sidebar, Header "Navigation"); (Sidebar, Radio "Go to" pages)].

(** The world in which the [try] of a cycle starts. *)
Definition at_try (w : world) : world :=
  mkWorld config (cache w) (reads w) Main masthead.

(** The string each arm of the chain tests for. *)
Definition name (b : branch) : string :=
  match b with
  | Overview => "Overview"
  | Exploratory_Analysis => "Exploratory Analysis"
  | Content_Clustering => "Content Clustering"
  | Duration_Prediction => "Duration Prediction"
  | Strategic_Recommendations => "Strategic Recommendations"
  end.

(** Line 142: the text of the error box. *)
Definition error_text (x : exn) : string :=
  ("Error loading dashboard: " ++ str x)%string.

(** The exception, if any, that leaves the body of the [try]. *)
Definition raised_in_try (e : env) (w : world) : option exn :=
  match fst (dashboard e (at_try w)) with
  | Ok _ => None
  | Raise x => Some x
  end.

(** What the body of the [try] has put on the page, whether it returned or
    raised: everything emitted after the masthead. *)
Definition shown_by_try (e : env) (w : world) : list element :=
  skipn (length masthead) (screen (snd (dashboard e (at_try w)))).

(** ** The process *)

(** The process: one render cycle per interaction, each under the
    environment of its time, the store carried from one to the next. *)
Definition session (es : list env) (w : world) : world :=
  fold_left (fun w e => snd (cycle e w)) es w.

(** ** Comparing two runs *)

(** Two environments in which the same calls raise the same exceptions. *)
Definition same_faults (e1 e2 : env) : Prop :=
  forall line, faults e1 line = faults e2 line.

(** Two worlds compared on the part of the page that [keep] selects; the
    store (cache and read count) is free to differ. *)
Definition similar (keep : element -> bool) (w1 w2 : world) : Prop :=
  page_config w1 = page_config w2 /\ cur w1 = cur w2 /\
  filter keep (screen w1) = filter keep (screen w2).

(** Two computations that, run from similar worlds under the same faults,
    end alike in similar worlds. *)
Definition related (keep : element -> bool) {A : Type} (m1 m2 : M A) : Prop :=
  forall e1 e2 w1 w2,
    same_faults e1 e2 -> similar keep w1 w2 ->
    fst (m1 e1 w1) = fst (m2 e2 w2) /\
    similar keep (snd (m1 e1 w1)) (snd (m2 e2 w2)).

(** The tables two runs have loaded: equal, or shown only in elements that
    [keep] drops. *)
Definition previews_dropped (keep : element -> bool) (df1 df2 : DataFrame) : Prop :=
  df1 = df2 \/ forall c d, keep (c, Dataframe d) = false.

(** ** More test inputs *)

(** A chart call that raises; an interrupt during the load. *)
Definition backend_error : exn :=
  Exc "RuntimeError" "main thread is not in main loop".

Definition subplots_raises : env :=
  mkEnv (disk (Parses sample)) 1
    (fun line => if Nat.eqb line 56 then Some backend_error else None).

Definition interrupted : env :=
  mkEnv (disk (Parses sample)) 0
    (fun line => if Nat.eqb line 23 then Some (BaseExc "KeyboardInterrupt" "")
                 else None).

(** A table without any of the columns of the dataset. *)
Definition one_column : DataFrame :=
  mkDataFrame [CInt 0; CInt 1] [CStr "foo"] [[CInt 1]; [CInt 2]].

(** ** Calls that can raise *)

(** The source lines of the chart calls of the Exploratory Analysis page. *)
Definition chart_lines : list nat := [56; 57; 58; 64; 65; 66; 72; 73; 74; 75]%nat.

(** The source lines of every call of a page that the environment may make
    raise: [st.dataframe] on the Overview, the charts, [st.table]. *)
Definition page_lines : list nat := (47 :: chart_lines ++ [95])%nat.

(** Does the load of a cycle started in [w] under [e] execute
    [pd.read_csv]: the cache is empty and the call is not made to raise
    before it starts. *)
Definition reads_storage (e : env) (w : world) : bool :=
  match cache w, faults e 23 with
  | None, None => true
  | _, _ => false
  end.

(** The environment [e] with no call raising. *)
Definition calm (e : env) : env := mkEnv (fs e) (choice e) no_faults.

(** ** Telling the branches and the error box apart on a page *)

(** The header each arm of the chain emits as its first statement (lines 34,
    50, 82, 105, 121). *)
Definition heading (b : branch) : string :=
  match b with
  | Overview => overview_header
  | Exploratory_Analysis => exploratory_header
  | Content_Clustering => clustering_header
  | Duration_Prediction => prediction_header
  | Strategic_Recommendations => recommendations_header
  end.

(** The [st.header] elements of the main container of a page. *)
Definition page_headers (s : list element) : list string :=
  flat_map (fun x => match x with
                     | (Main, Header h) => [h]
                     | _ => []
                     end) s.







(** * Properties *)

(** ** Running the monad *)

Lemma bind_Ok {A B : Type} (m : M A) (k : A -> M B) e w a w' :
  m e w = (Ok a, w') -> bind m k e w = k a e w'.
Proof. intros H. unfold bind. rewrite H. reflexivity. Qed.

Lemma bind_Raise {A B : Type} (m : M A) (k : A -> M B) e w x w' :
  m e w = (Raise x, w') -> bind m k e w = (Raise x, w').
Proof. intros H. unfold bind. rewrite H. reflexivity. Qed.

Lemma try_Ok body handler e w w' :
  body e w = (Ok tt, w') -> try_except_Exception body handler e w = (Ok tt, w').
Proof. intros H. unfold try_except_Exception. rewrite H. reflexivity. Qed.

Lemma try_caught body handler e w x w' :
  body e w = (Raise x, w') -> is_Exception x = true ->
  try_except_Exception body handler e w = handler x e w'.
Proof. intros H Hx. unfold try_except_Exception. rewrite H, Hx. reflexivity. Qed.

Lemma try_escapes body handler e w x w' :
  body e w = (Raise x, w') -> is_Exception x = false ->
  try_except_Exception body handler e w = (Raise x, w').
Proof. intros H Hx. unfold try_except_Exception. rewrite H, Hx. reflexivity. Qed.

(** ** What a computation leaves alone

    A relation between the world before and the world after that is closed
    under sequencing, under [with] blocks and under emitting anything but an
    error box is respected by every page of the dashboard, whichever calls
    raise. *)
Section Frame.
Variable P : world -> world -> Prop.
Hypothesis P_refl : forall w, P w w.
Hypothesis P_trans : forall a b c, P a b -> P b c -> P a c.
Hypothesis P_with :
  forall c w w', P (set_cur c w) w' -> P w (set_cur (cur w) w').
Hypothesis P_emit :
  forall c x w, (forall m, x <> Error m) ->
                P w (set_screen (screen w ++ [(c, x)]) w).

Lemma respects_ret {A : Type} (a : A) : respects P (ret a).
Proof. intros e w. apply P_refl. Qed.

Lemma respects_raise {A : Type} (x : exn) : respects P (@raise A x).
Proof. intros e w. apply P_refl. Qed.

Lemma respects_bind {A B : Type} (m : M A) (k : A -> M B) :
  respects P m -> (forall a, respects P (k a)) -> respects P (bind m k).
Proof.
  intros Hm Hk e w. unfold bind.
  specialize (Hm e w). destruct (m e w) as [[a | x] w1]; simpl in *.
  - apply P_trans with w1; [exact Hm | apply Hk].
  - exact Hm.
Qed.

Lemma respects_call {A : Type} (line : nat) (m : M A) :
  respects P m -> respects P (call line m).
Proof.
  intros Hm e w. unfold call.
  destruct (faults e line); [apply P_refl | apply Hm].
Qed.

Lemma respects_with {A : Type} (c : container) (m : M A) :
  respects P m -> respects P (with_ c m).
Proof.
  intros Hm e w. unfold with_.
  specialize (Hm e (set_cur c w)).
  destruct (m e (set_cur c w)) as [r w1]; simpl in *.
  apply P_with with c. exact Hm.
Qed.

Lemma respects_emit_in (c : container) (x : widget) :
  (forall m, x <> Error m) -> respects P (emit_in c x).
Proof. intros Hx e w. apply P_emit. exact Hx. Qed.

Lemma respects_emit (x : widget) :
  (forall m, x <> Error m) -> respects P (emit x).
Proof. intros Hx e w. apply P_emit. exact Hx. Qed.

Lemma respects_st_columns (n : nat) : respects P (st_columns n).
Proof. apply respects_ret. Qed.

Lemma respects_st_sidebar_radio label options :
  respects P (st_sidebar_radio label options).
Proof.
  intros e w. unfold st_sidebar_radio.
  apply respects_bind.
  - apply respects_emit_in. discriminate.
  - intros _. apply respects_ret.
Qed.

Ltac frame :=
  repeat first
    [ apply respects_ret
    | apply respects_raise
    | apply respects_st_columns
    | apply respects_call
    | apply respects_with
    | apply respects_emit_in; discriminate
    | apply respects_emit; discriminate
    | apply respects_bind; [ | intros ? ]
    | match goal with
      | |- respects P (match ?l with _ => _ end) => destruct l
      end ].

Lemma respects_overview df : respects P (overview df).
Proof. unfold overview. frame. Qed.

Lemma respects_exploratory : respects P exploratory.
Proof.
  unfold exploratory, plt_subplots, sns_barplot, sns_lineplot, plt_title.
  frame.
Qed.

Lemma respects_clustering : respects P clustering.
Proof. unfold clustering. frame. Qed.

Lemma respects_prediction : respects P prediction.
Proof. unfold prediction. frame. Qed.

Lemma respects_recommendations : respects P recommendations.
Proof. unfold recommendations. frame. Qed.

Lemma respects_view df b : respects P (view df b).
Proof.
  destruct b; simpl.
  - apply respects_overview.
  - apply respects_exploratory.
  - apply respects_clustering.
  - apply respects_prediction.
  - apply respects_recommendations.
Qed.

Lemma respects_router (arm : branch -> M unit) (page : string) :
  (forall b, respects P (arm b)) -> respects P (router arm page).
Proof.
  intros Harm. unfold router.
  repeat match goal with
         | |- respects P (if ?c then _ else _) => destruct c; [apply Harm | ]
         end.
  apply respects_ret.
Qed.

Lemma respects_render_page page df : respects P (render_page page df).
Proof. apply respects_router. intros b. apply respects_view. Qed.

(** Lines 30-139: the [try] body after the load. *)
Lemma respects_after_load df :
  respects P (emit_in Sidebar (Header "Navigation");;
            page <- st_sidebar_radio "Go to" pages;;
            render_page page df).
Proof.
  apply respects_bind; [apply respects_emit_in; discriminate | intros _].
  apply respects_bind; [apply respects_st_sidebar_radio | intros page].
  apply respects_render_page.
Qed.

Lemma respects_dashboard : respects P load_data -> respects P dashboard.
Proof.
  intros Hl. unfold dashboard. apply respects_bind; [exact Hl | intros df].
  apply respects_after_load.
Qed.
End Frame.

(** ** Two instances of the frame *)

Lemma errors_of_app s t : errors_of (s ++ t) = errors_of s ++ errors_of t.
Proof. unfold errors_of. apply flat_map_app. Qed.

Lemma errors_of_widget c x :
  (forall m, x <> Error m) -> errors_of [(c, x)] = [].
Proof. intros Hx. destruct x; try reflexivity. destruct (Hx s). reflexivity. Qed.

Lemma paints_refl w : paints w w.
Proof.
  repeat split. exists []. split; [symmetry; apply app_nil_r | reflexivity].
Qed.

Lemma paints_trans a b c : paints a b -> paints b c -> paints a c.
Proof.
  intros (Hc1 & Hp1 & s1 & Hs1 & He1) (Hc2 & Hp2 & s2 & Hs2 & He2).
  split; [congruence | split; [congruence | ]].
  exists (s1 ++ s2). split.
  - rewrite Hs2, Hs1. symmetry. apply app_assoc.
  - rewrite errors_of_app, He1, He2. reflexivity.
Qed.

Lemma paints_with c w w' :
  paints (set_cur c w) w' -> paints w (set_cur (cur w) w').
Proof. intros (_ & Hp & s & Hs & He). repeat split; simpl; eauto. Qed.

Lemma paints_emit c x w :
  (forall m, x <> Error m) -> paints w (set_screen (screen w ++ [(c, x)]) w).
Proof.
  intros Hx. repeat split. exists [(c, x)]. split; [reflexivity | ].
  apply errors_of_widget. exact Hx.
Qed.

Lemma same_store_refl w : same_store w w.
Proof. split; reflexivity. Qed.

Lemma same_store_trans a b c : same_store a b -> same_store b c -> same_store a c.
Proof. intros [H1 H2] [H3 H4]. split; congruence. Qed.

Lemma same_store_with c w w' :
  same_store (set_cur c w) w' -> same_store w (set_cur (cur w) w').
Proof. intros [H1 H2]. split; simpl; assumption. Qed.

Lemma same_store_emit c x w :
  same_store w (set_screen (screen w ++ [(c, x)]) w).
Proof. split; reflexivity. Qed.

Lemma render_page_paints page df : respects paints (render_page page df).
Proof.
  apply respects_render_page.
  - exact paints_refl.
  - exact paints_trans.
  - exact paints_with.
  - exact paints_emit.
Qed.

Lemma render_page_same_store page df : respects same_store (render_page page df).
Proof.
  apply respects_render_page.
  - exact same_store_refl.
  - exact same_store_trans.
  - exact same_store_with.
  - intros c x w _. apply same_store_emit.
Qed.

(** ** The loader *)

Lemma load_hit e w df : cache w = Some df -> load_data e w = (Ok df, w).
Proof. intros H. unfold load_data, st_cache_data. rewrite H. reflexivity. Qed.

Lemma load_miss e w df :
  cache w = None -> faults e 23 = None ->
  fs e "netflix_clean.csv" = Parses df ->
  load_data e w = (Ok df, set_cache (Some df) (tick_reads w)).
Proof.
  intros Hc Hf Hs. unfold load_data, st_cache_data, bind, call, pd_read_csv.
  rewrite Hc, Hf, Hs. reflexivity.
Qed.

(** The loader never draws, and whenever it returns a table that table is
    in the cache afterwards. *)
Lemma load_data_world e w :
  exists c r,
    snd (load_data e w) = mkWorld (page_config w) c r (cur w) (screen w) /\
    (r = reads w \/ r = S (reads w)) /\
    forall df, loaded e w = Ok df -> c = Some df.
Proof.
  unfold loaded, load_data, st_cache_data, bind, call, pd_read_csv.
  destruct w as [pc c r cu sc]; simpl.
  destruct c as [d | ].
  - exists (Some d), r. simpl. repeat split; auto. intros df H. congruence.
  - destruct (faults e 23).
    + exists None, r. simpl. repeat split; auto. discriminate.
    + destruct (fs e "netflix_clean.csv"); simpl.
      * exists None, (S r). repeat split; auto. discriminate.
      * exists None, (S r). repeat split; auto. discriminate.
      * exists None, (S r). repeat split; auto. discriminate.
      * exists (Some df), (S r). repeat split; auto. intros d H. congruence.
Qed.

Lemma loaded_cache e w1 w2 : cache w1 = cache w2 -> loaded e w1 = loaded e w2.
Proof.
  intros H. unfold loaded, load_data, st_cache_data, bind, call, pd_read_csv.
  rewrite H. destruct (cache w2); [reflexivity | ].
  destruct (faults e 23); [reflexivity | ].
  destruct (fs e "netflix_clean.csv"); reflexivity.
Qed.

Lemma load_data_paints : respects paints load_data.
Proof.
  intros e w. destruct (load_data_world e w) as (c & r & Hw & _ & _).
  rewrite Hw. repeat split. exists []. simpl. split; [symmetry; apply app_nil_r | reflexivity].
Qed.

(** ** The shape of a cycle *)

(** When the load returns a table, the cycle is the router run under the
    handler on a page that holds the title, the introduction and the
    sidebar. *)
Lemma preamble_runs e w :
  preamble e (fresh w) =
  (Ok tt, mkWorld config (cache w) (reads w) Main
            [(Main, Title title_text); (Main, Markdown intro_text)]).
Proof. reflexivity. Qed.

Lemma cycle_script e w :
  cycle e w =
  try_except_Exception dashboard on_error e
    (mkWorld config (cache w) (reads w) Main
       [(Main, Title title_text); (Main, Markdown intro_text)]).
Proof.
  unfold cycle, script.
  exact (bind_Ok preamble (fun _ => try_except_Exception dashboard on_error)
           e (fresh w) tt _ (preamble_runs e w)).
Qed.

Lemma dashboard_loaded e w df :
  loaded e w = Ok df ->
  exists r,
    (r = reads w \/ r = S (reads w)) /\
    dashboard e w =
    render_page (navigation e) df e
      (mkWorld (page_config w) (Some df) r (cur w)
         (screen w ++ [(Sidebar, Header "Navigation");
                       (Sidebar, Radio "Go to" pages)])).
Proof.
  intros H.
  destruct (load_data_world e w) as (c & r & Hw & Hr & Hc).
  specialize (Hc df H). subst c.
  exists r. split; [exact Hr | ].
  unfold loaded in H. destruct (load_data e w) as [o w1] eqn:E.
  simpl in H, Hw. subst o w1.
  unfold dashboard. rewrite (bind_Ok _ _ _ _ _ _ E).
  unfold bind, emit_in, st_sidebar_radio, ret, set_screen. simpl.
  rewrite <- app_assoc. reflexivity.
Qed.

(** When the load returns a table, the cycle is the router run under the
    handler on a page that holds the title, the introduction and the
    sidebar. *)
Lemma cycle_loaded e w df :
  loaded e w = Ok df ->
  exists r,
    (r = reads w \/ r = S (reads w)) /\
    cycle e w =
    try_except_Exception (render_page (navigation e) df) on_error e
      (mkWorld config (Some df) r Main chrome).
Proof.
  intros H. rewrite cycle_script.
  set (w0 := mkWorld config (cache w) (reads w) Main
               [(Main, Title title_text); (Main, Markdown intro_text)]).
  assert (H0 : loaded e w0 = Ok df)
    by (rewrite <- H; apply loaded_cache; reflexivity).
  destruct (dashboard_loaded e w0 df H0) as (r & Hr & Hd).
  exists r. split; [exact Hr | ].
  unfold try_except_Exception. rewrite Hd. reflexivity.
Qed.

(** When the load raises, nothing follows it in the [try]. *)
Lemma dashboard_load_raises e w x :
  loaded e w = Raise x ->
  exists r,
    dashboard e w =
    (Raise x, mkWorld (page_config w) (cache w) r (cur w) (screen w)).
Proof.
  intros H.
  destruct (load_data_world e w) as (c & r & Hw & Hr & Hc).
  exists r. unfold loaded in H. destruct (load_data e w) as [o w1] eqn:E.
  simpl in H, Hw. subst o w1.
  unfold dashboard. rewrite (bind_Raise _ _ _ _ _ _ E).
  assert (c = cache w); [ | subst c; reflexivity ].
  revert E. unfold load_data, st_cache_data, bind, call, pd_read_csv.
  destruct w as [pc c0 r0 cu sc]; simpl.
  destruct c0; [discriminate | ].
  destruct (faults e 23); [ intros E; inversion E; reflexivity | ].
  destruct (fs e "netflix_clean.csv"); intros E; inversion E; reflexivity.
Qed.

Lemma dashboard_paints : respects paints dashboard.
Proof.
  apply respects_dashboard.
  - exact paints_refl.
  - exact paints_trans.
  - exact paints_with.
  - exact paints_emit.
  - exact load_data_paints.
Qed.

(** With the table in the cache, the [try] body leaves the store alone. *)
Lemma dashboard_hit_same_store e w df :
  cache w = Some df -> same_store w (snd (dashboard e w)).
Proof.
  intros H. unfold dashboard.
  rewrite (bind_Ok _ _ _ _ _ _ (load_hit e w df H)).
  apply respects_after_load.
  - exact same_store_refl.
  - exact same_store_trans.
  - exact same_store_with.
  - intros c x w0 _. apply same_store_emit.
Qed.

Lemma try_same_store body e w :
  same_store w (snd (body e w)) ->
  same_store w (snd (try_except_Exception body on_error e w)).
Proof.
  intros H. unfold try_except_Exception.
  destruct (body e w) as [[[] | x] w1]; simpl in *; [exact H | ].
  destruct (is_Exception x); exact H.
Qed.

Lemma cycle_hit_same_store e w df :
  cache w = Some df -> same_store w (snd (cycle e w)).
Proof.
  intros H. rewrite cycle_script.
  set (w0 := mkWorld _ _ _ _ _).
  assert (H0 : same_store w0 (snd (try_except_Exception dashboard on_error e w0))).
  { apply try_same_store. apply dashboard_hit_same_store with df. exact H. }
  destruct H0 as [Hc Hr]. split; [rewrite Hc | rewrite Hr]; reflexivity.
Qed.

Lemma session_hit_same_store es : forall w df,
  cache w = Some df -> same_store w (session es w).
Proof.
  induction es as [ | e es IH]; intros w df H; simpl.
  - apply same_store_refl.
  - pose proof (cycle_hit_same_store e w df H) as Hc.
    apply same_store_trans with (snd (cycle e w)); [exact Hc | ].
    apply IH with df. destruct Hc as [Hc _]. rewrite Hc. exact H.
Qed.

(** ** The router *)

Lemma name_injective b b' : name b = name b' -> b = b'.
Proof. destruct b, b'; simpl; intros H; (reflexivity || discriminate H). Qed.

Lemma name_in_pages b : In (name b) pages.
Proof. destruct b; simpl; auto 6. Qed.

Lemma in_pages_name page : In page pages -> exists b, page = name b.
Proof.
  simpl. intros [H | [H | [H | [H | [H | []]]]]]; subst page.
  - exists Overview. reflexivity.
  - exists Exploratory_Analysis. reflexivity.
  - exists Content_Clustering. reflexivity.
  - exists Duration_Prediction. reflexivity.
  - exists Strategic_Recommendations. reflexivity.
Qed.

(** The radio only ever returns one of its five options. *)
Lemma navigation_in_pages e : In (navigation e) pages.
Proof.
  unfold navigation.
  destruct (choice e) as [ | [ | [ | [ | [ | n]]]]]; simpl; auto 6.
  destruct n; auto.
Qed.

Lemma router_name (arm : branch -> M unit) (b : branch) :
  router arm (name b) = arm b.
Proof. destruct b; reflexivity. Qed.

Lemma router_other (arm : branch -> M unit) (page : string) :
  ~ In page pages -> router arm page = ret tt.
Proof.
  intros H. unfold router.
  repeat match goal with
         | |- (if String.eqb page ?s then _ else _) = _ =>
             destruct (String.eqb_spec page s) as [E | _];
             [ exfalso; apply H; rewrite E; simpl; auto 6 | ]
         end.
  reflexivity.
Qed.

(** C7: a navigation value that is none of the five identifiers makes the
    router return normally with the page exactly as it was: no arm runs,
    nothing is emitted, nothing is raised. *)
Theorem unknown_page_renders_nothing (page : string) (df : DataFrame) (e : env) (w : world) :
  ~ In page pages -> render_page page df e w = (Ok tt, w).
Proof.
  intros H. unfold render_page. rewrite (router_other _ _ H). reflexivity.
Qed.

Lemma unknown_page_witness :
  render_page "Settings" sample (mkEnv (disk (Parses sample)) 0 no_faults) boot
  = (Ok tt, boot).
Proof.
  apply unknown_page_renders_nothing.
  simpl. intros [H | [H | [H | [H | [H | []]]]]]; discriminate H.
Defined.

(** ** The memoised load *)

(** C3: once a load has read the table from storage, every later load, in
    any later render cycle and whatever has happened to the file since,
    returns that same table (hence the same rows and the same columns) out
    of the cache and leaves the world as it was: storage is not read
    again, and no cycle evicts the entry. *)
Theorem load_data_memoised (e0 : env) (w : world) (df : DataFrame) :
  cache w = None ->
  faults e0 23 = None ->
  fs e0 "netflix_clean.csv" = Parses df ->
  exists w0,
    load_data e0 w = (Ok df, w0) /\
    reads w0 = S (reads w) /\
    forall (es : list env) (e : env),
      load_data e (session es w0) = (Ok df, session es w0) /\
      reads (session es w0) = reads w0.
Proof.
  intros Hc Hf Hs. exists (set_cache (Some df) (tick_reads w)).
  split; [apply load_miss; assumption | ].
  split; [reflexivity | ].
  intros es e.
  destruct (session_hit_same_store es (set_cache (Some df) (tick_reads w)) df
              eq_refl) as [Hc' Hr'].
  split; [apply load_hit; rewrite Hc'; reflexivity | exact Hr'].
Qed.

Lemma load_data_memoised_witness :
  exists w0,
    load_data (mkEnv (disk (Parses sample)) 0 no_faults) boot = (Ok sample, w0) /\
    reads w0 = 1%nat /\
    forall (es : list env) (e : env),
      load_data e (session es w0) = (Ok sample, session es w0) /\
      reads (session es w0) = reads w0.
Proof.
  apply (load_data_memoised (mkEnv (disk (Parses sample)) 0 no_faults) boot sample);
    reflexivity.
Defined.

(** ** The handler *)

Lemma dashboard_at_try e w :
  screen (snd (dashboard e (at_try w))) = masthead ++ shown_by_try e w /\
  errors_of (shown_by_try e w) = [] /\
  cur (snd (dashboard e (at_try w))) = Main.
Proof.
  destruct (dashboard_paints e (at_try w)) as (Hc & _ & s & Hs & He).
  unfold shown_by_try. rewrite Hs. simpl. auto.
Qed.

(** A cycle whose [try] body raises an instance of [Exception] ends
    normally with one error box under what the body had emitted. *)
Lemma cycle_caught e w x :
  raised_in_try e w = Some x -> is_Exception x = true ->
  fst (cycle e w) = Ok tt /\
  screen (snd (cycle e w)) =
  masthead ++ shown_by_try e w ++ [(Main, Error (error_text x))].
Proof.
  intros Hr Hx. rewrite cycle_script. fold masthead. fold (at_try w).
  destruct (dashboard_at_try e w) as (Hs & _ & Hc).
  unfold raised_in_try in Hr.
  destruct (dashboard e (at_try w)) as [[u | y] w1] eqn:E; simpl in *;
    [discriminate | ].
  inversion Hr; subst y.
  rewrite (try_caught _ _ _ _ _ _ E Hx).
  unfold on_error, emit, emit_in. simpl. rewrite Hc, Hs.
  split; reflexivity.
Qed.

(** A cycle whose [try] body raises anything else ends with that exception
    uncaught and no error box. *)
Lemma cycle_escapes e w x :
  raised_in_try e w = Some x -> is_Exception x = false ->
  cycle e w = (Raise x, snd (dashboard e (at_try w))).
Proof.
  intros Hr Hx. rewrite cycle_script. fold masthead. fold (at_try w).
  unfold raised_in_try in Hr.
  destruct (dashboard e (at_try w)) as [[u | y] w1] eqn:E; simpl in *;
    [discriminate | ].
  inversion Hr; subst y.
  apply (try_escapes _ _ _ _ _ _ E Hx).
Qed.

Lemma cycle_returns e w :
  raised_in_try e w = None -> cycle e w = (Ok tt, snd (dashboard e (at_try w))).
Proof.
  intros Hr. rewrite cycle_script. fold masthead. fold (at_try w).
  unfold raised_in_try in Hr.
  destruct (dashboard e (at_try w)) as [[[] | y] w1] eqn:E; simpl in *;
    [ | discriminate ].
  apply (try_Ok _ _ _ _ _ E).
Qed.

(** A load that raises is the first and last thing the [try] body does. *)
Lemma load_raises_in_try e w x :
  loaded e w = Raise x ->
  raised_in_try e w = Some x /\ shown_by_try e w = [].
Proof.
  intros H.
  assert (H0 : loaded e (at_try w) = Raise x)
    by (rewrite <- H; apply loaded_cache; reflexivity).
  destruct (dashboard_load_raises e (at_try w) x H0) as [r Hd].
  unfold raised_in_try, shown_by_try. rewrite Hd. simpl. auto.
Qed.

Lemma absent_file_raises e w :
  cache w = None -> faults e 23 = None ->
  fs e "netflix_clean.csv" = Absent ->
  loaded e w =
  Raise (Exc "FileNotFoundError"
           "[Errno 2] No such file or directory: 'netflix_clean.csv'").
Proof.
  intros Hc Hf Hs.
  unfold loaded, load_data, st_cache_data, bind, call, pd_read_csv.
  rewrite Hc, Hf, Hs. reflexivity.
Qed.

(** C1, as stated, fails twice.  An exception raised while a page renders
    is caught and reported, but the page content emitted before it stays on
    the page; and an exception that is not an instance of [Exception] is
    not caught at all. *)
Lemma failure_leaves_page_content :
  (raised_in_try subplots_raises boot = Some backend_error /\
   is_Exception backend_error = true /\
   screen (snd (cycle subplots_raises boot)) =
   [(Main, Title title_text); (Main, Markdown intro_text);
    (Sidebar, Header "Navigation"); (Sidebar, Radio "Go to" pages);
    (Main, Header exploratory_header);
    (Column 0 2, Write "#### Movies vs TV Shows");
    (Main, Error "Error loading dashboard: main thread is not in main loop")]) /\
  (cycle interrupted boot =
   (Raise (BaseExc "KeyboardInterrupt" ""),
    mkWorld config None 0 Main masthead)).
Proof. split; [split; [ | split] | ]; reflexivity. Qed.

(** C1, amended: an instance of [Exception] that leaves the body of the
    [try], raised by the load or by a page, is caught by the one handler:
    the cycle ends normally and the page holds exactly one error box, the
    last element, with the text of the exception.  What the body had
    emitted before the exception stays above the box; when it was the load
    that raised, that is nothing, neither sidebar nor page content.  A
    missing CSV file, read with an empty cache, gives the title, the
    introduction and the box of the [FileNotFoundError]. *)
Theorem exception_reported_once :
  (forall (e : env) (w : world) (x : exn),
      raised_in_try e w = Some x ->
      is_Exception x = true ->
      fst (cycle e w) = Ok tt /\
      screen (snd (cycle e w)) =
        masthead ++ shown_by_try e w ++ [(Main, Error (error_text x))] /\
      errors_of (screen (snd (cycle e w))) = [error_text x] /\
      (forall y, loaded e w = Raise y -> shown_by_try e w = [])) /\
  (forall (e : env) (w : world),
      cache w = None ->
      faults e 23 = None ->
      fs e "netflix_clean.csv" = Absent ->
      fst (cycle e w) = Ok tt /\
      screen (snd (cycle e w)) =
        [(Main, Title title_text); (Main, Markdown intro_text);
         (Main, Error "Error loading dashboard: [Errno 2] No such file or directory: 'netflix_clean.csv'")]).
Proof.
  split.
  - intros e w x Hr Hx.
    destruct (cycle_caught e w x Hr Hx) as [Hok Hs].
    destruct (dashboard_at_try e w) as (_ & He & _).
    split; [exact Hok | ]. split; [exact Hs | ]. split.
    + rewrite Hs, !errors_of_app, He. reflexivity.
    + intros y Hy. apply (load_raises_in_try e w y Hy).
  - intros e w Hc Hf Hs.
    pose proof (absent_file_raises e w Hc Hf Hs) as Hl.
    destruct (load_raises_in_try e w _ Hl) as [Hr Hn].
    destruct (cycle_caught e w _ Hr eq_refl) as [Hok Hsc].
    split; [exact Hok | ]. rewrite Hsc, Hn. reflexivity.
Qed.

Lemma exception_reported_once_witness :
  fst (cycle (mkEnv (disk Absent) 0 no_faults) boot) = Ok tt /\
  screen (snd (cycle (mkEnv (disk Absent) 0 no_faults) boot)) =
    [(Main, Title title_text); (Main, Markdown intro_text);
     (Main, Error "Error loading dashboard: [Errno 2] No such file or directory: 'netflix_clean.csv'")].
Proof.
  apply (proj2 exception_reported_once (mkEnv (disk Absent) 0 no_faults) boot);
    reflexivity.
Defined.

(** C10, as stated, fails.  When the load is interrupted by an exception
    that is not an instance of [Exception] no radio is offered, but no
    error message is shown either: the page holds the title and the
    introduction only and the exception leaves the script. *)
Lemma interrupted_load_shows_no_message :
  loaded interrupted boot = Raise (BaseExc "KeyboardInterrupt" "") /\
  fst (cycle interrupted boot) = Raise (BaseExc "KeyboardInterrupt" "") /\
  screen (snd (cycle interrupted boot)) =
    [(Main, Title title_text); (Main, Markdown intro_text)] /\
  errors_of (screen (snd (cycle interrupted boot))) = [] /\
  radios_of (screen (snd (cycle interrupted boot))) = [].
Proof. repeat split. Qed.

(** C10, amended: the title and the introduction are emitted before the
    [try] and open the page of every cycle, whatever happens later.  The
    sidebar header and the navigation radio are emitted inside the [try],
    after the load: when the load returns they follow the introduction, and
    when the load raises, whatever the exception, no radio is offered.  If
    the exception is an instance of [Exception] the cycle ends normally and
    the page holds the title, the introduction and the error box, and
    nothing else; if it is not, it leaves the script and the page holds the
    title and the introduction alone. *)
Theorem masthead_outside_try (e : env) (w : world) :
  (exists rest,
      screen (snd (cycle e w)) =
      (Main, Title title_text) :: (Main, Markdown intro_text) :: rest) /\
  (forall df, loaded e w = Ok df ->
      exists rest,
        screen (snd (cycle e w)) =
        (Main, Title title_text) :: (Main, Markdown intro_text) ::
        (Sidebar, Header "Navigation") :: (Sidebar, Radio "Go to" pages) :: rest) /\
  (forall x, loaded e w = Raise x ->
      radios_of (screen (snd (cycle e w))) = [] /\
      fst (cycle e w) = (if is_Exception x then Ok tt else Raise x) /\
      screen (snd (cycle e w)) =
        (Main, Title title_text) :: (Main, Markdown intro_text) ::
        (if is_Exception x then [(Main, Error (error_text x))] else [])).
Proof.
  split; [ | split].
  - destruct (dashboard_at_try e w) as (Hs & _ & _).
    destruct (raised_in_try e w) as [x | ] eqn:Hr.
    + destruct (is_Exception x) eqn:Hx.
      * destruct (cycle_caught e w x Hr Hx) as [_ Hc].
        rewrite Hc. eexists. reflexivity.
      * rewrite (cycle_escapes e w x Hr Hx). simpl. rewrite Hs.
        eexists. reflexivity.
    + rewrite (cycle_returns e w Hr). simpl. rewrite Hs.
      eexists. reflexivity.
  - intros df H.
    destruct (cycle_loaded e w df H) as (r & _ & Hc).
    set (w1 := mkWorld config (Some df) r Main chrome) in Hc.
    destruct (render_page_paints (navigation e) df e w1) as (Hcur & _ & s & Hs & _).
    rewrite Hc. unfold try_except_Exception.
    destruct (render_page (navigation e) df e w1) as [[[] | x] w2]; simpl in *.
    + rewrite Hs. eexists. reflexivity.
    + destruct (is_Exception x); simpl; rewrite Hs; eexists; reflexivity.
  - intros x H.
    destruct (load_raises_in_try e w x H) as [Hr Hn].
    destruct (dashboard_at_try e w) as (Hs & _ & _). rewrite Hn in Hs.
    destruct (is_Exception x) eqn:Hx.
    + destruct (cycle_caught e w x Hr Hx) as [Hok Hsc].
      rewrite Hsc, Hn, Hok. repeat split.
    + rewrite (cycle_escapes e w x Hr Hx). simpl. rewrite Hs. repeat split.
Qed.

Lemma masthead_outside_try_witness :
  radios_of (screen (snd (cycle (mkEnv (disk Unreadable) 3 no_faults) boot))) = [] /\
  fst (cycle (mkEnv (disk Unreadable) 3 no_faults) boot) = Ok tt /\
  screen (snd (cycle (mkEnv (disk Unreadable) 3 no_faults) boot)) =
    [(Main, Title title_text); (Main, Markdown intro_text);
     (Main, Error "Error loading dashboard: [Errno 13] Permission denied: 'netflix_clean.csv'")].
Proof.
  apply (proj2 (proj2 (masthead_outside_try (mkEnv (disk Unreadable) 3 no_faults) boot))
           (Exc "PermissionError" "[Errno 13] Permission denied: 'netflix_clean.csv'")).
  reflexivity.
Defined.

(** ** The pages *)

(** Runs the router on a known navigation value down to the calls whose
    outcome the environment decides. *)
Ltac run_page :=
  unfold try_except_Exception, render_page, router;
  simpl String.eqb; cbv iota;
  unfold view, overview, exploratory, clustering, prediction, recommendations,
    unpack_error, with_, bind, st_columns, ret, raise, emit, emit_in, call,
    set_screen, set_cur;
  simpl.




(** C5: on the Duration Prediction page the page is the header, the two
    metrics with the literal strings 0.1407 and 2264.50 and the fixed text;
    the branch calls nothing else, so it is the same page for every table
    and every environment. *)
Theorem prediction_page (e : env) (w : world) (df : DataFrame) :
  loaded e w = Ok df ->
  navigation e = "Duration Prediction" ->
  fst (cycle e w) = Ok tt /\
  screen (snd (cycle e w)) =
    chrome ++
    [(Main, Header prediction_header);
     (Column 0 2, Metric "R² Score" (VStr "0.1407"));
     (Column 1 2, Metric "Mean Squared Error" (VStr "2264.50"));
     (Main, Markdown model_interpretation)] /\
  metrics_of (screen (snd (cycle e w))) =
    [("R² Score", VStr "0.1407"); ("Mean Squared Error", VStr "2264.50")].
Proof.
  intros H Hn. destruct (cycle_loaded e w df H) as (r & _ & Hc).
  rewrite Hc, Hn. clear Hc. run_page. repeat split.
Qed.

Lemma prediction_page_witness :
  metrics_of (screen (snd (cycle (mkEnv (disk (Parses sample)) 3 no_faults) boot))) =
    [("R² Score", VStr "0.1407"); ("Mean Squared Error", VStr "2264.50")].
Proof.
  apply (prediction_page (mkEnv (disk (Parses sample)) 3 no_faults) boot sample
           eq_refl eq_refl).
Defined.

(** C6: when the load returns and the navigation value is Content
    Clustering, and the table call of line 95 does not raise, the page holds
    one table, the literal [cluster_summary] transposed: four rows,
    Cluster 0 to Cluster 3, whose Segment column reads Mainstream Movies,
    Recent Indie/Short Films, Modern Episodic Content, Classic Library
    Content, in that order.  Nothing on the page depends on the loaded
    table. *)
Theorem clustering_page (e : env) (w : world) (df : DataFrame) :
  loaded e w = Ok df ->
  navigation e = "Content Clustering" ->
  faults e 95 = None ->
  fst (cycle e w) = Ok tt /\
  screen (snd (cycle e w)) =
    chrome ++
    [(Main, Header clustering_header);
     (Main, Markdown segmentation_intro);
     (Main, Table (transpose (DataFrame_of_dict cluster_summary)));
     (Main, Markdown segmentation_insights)] /\
  exists t,
    tables_of (screen (snd (cycle e w))) = [t] /\
    length (data t) = 4%nat /\
    index t = [CStr "Cluster 0"; CStr "Cluster 1"; CStr "Cluster 2"; CStr "Cluster 3"] /\
    columns t = [CStr "Year"; CStr "Duration"; CStr "Type"; CStr "Segment"] /\
    column "Segment" t =
      Some [CStr "Mainstream Movies"; CStr "Recent Indie/Short Films";
            CStr "Modern Episodic Content"; CStr "Classic Library Content"].
Proof.
  intros H Hn Hf. destruct (cycle_loaded e w df H) as (r & _ & Hc).
  rewrite Hc, Hn. clear Hc. run_page. rewrite Hf.
  split; [reflexivity | ]. split; [reflexivity | ].
  exists (transpose (DataFrame_of_dict cluster_summary)).
  repeat split.
Qed.

Lemma clustering_page_witness :
  exists t,
    tables_of (screen (snd (cycle (mkEnv (disk (Parses sample)) 2 no_faults) boot))) = [t] /\
    length (data t) = 4%nat /\
    index t = [CStr "Cluster 0"; CStr "Cluster 1"; CStr "Cluster 2"; CStr "Cluster 3"] /\
    columns t = [CStr "Year"; CStr "Duration"; CStr "Type"; CStr "Segment"] /\
    column "Segment" t =
      Some [CStr "Mainstream Movies"; CStr "Recent Indie/Short Films";
            CStr "Modern Episodic Content"; CStr "Classic Library Content"].
Proof.
  apply (clustering_page (mkEnv (disk (Parses sample)) 2 no_faults) boot sample
           eq_refl eq_refl eq_refl).
Defined.

(** ** What the loader accepts *)

(** C9, as stated, fails.  A file that parses to a table with the single
    column foo is loaded, cached and rendered, with no error; and once a
    table is cached a missing file does not make the loader fail. *)
Lemma loader_checks_no_columns :
  columns one_column = [CStr "foo"] /\
  load_data (mkEnv (disk (Parses one_column)) 0 no_faults) boot =
    (Ok one_column, mkWorld None (Some one_column) 1 Main []) /\
  fst (cycle (mkEnv (disk (Parses one_column)) 0 no_faults) boot) = Ok tt /\
  errors_of (screen (snd (cycle (mkEnv (disk (Parses one_column)) 0 no_faults) boot))) = [] /\
  previews_of (screen (snd (cycle (mkEnv (disk (Parses one_column)) 0 no_faults) boot))) =
    [one_column] /\
  load_data (mkEnv (disk Absent) 0 no_faults) (mkWorld None (Some sample) 1 Main []) =
    (Ok sample, mkWorld None (Some sample) 1 Main []).
Proof. repeat split. Qed.

(** C9, amended: a load that finds the cache empty reads the file.  When
    the file is missing, unreadable or not parseable the load raises what
    [pd.read_csv] raised, unchanged, an instance of [Exception], and caches
    nothing.  When the file parses to a table the load returns and caches
    that table, whatever its columns are, and the cycle renders it: on the
    Overview page, when [st.dataframe] does not raise, the cycle ends
    normally without an error box and previews the first ten rows under
    the table's own columns.  A load that finds a table in the cache
    returns it and leaves the world as it was, whatever is stored at the
    path. *)
Theorem loader_contract (e : env) (w : world) :
  (cache w = None ->
   faults e 23 = None ->
   (fs e "netflix_clean.csv" = Absent \/
    fs e "netflix_clean.csv" = Unreadable \/
    (exists why, fs e "netflix_clean.csv" = Malformed why) ->
    exists x,
      loaded e w = Raise x /\
      fst (pd_read_csv "netflix_clean.csv" e w) = Raise x /\
      is_Exception x = true /\
      cache (snd (load_data e w)) = None) /\
   (forall df,
      fs e "netflix_clean.csv" = Parses df ->
      load_data e w = (Ok df, set_cache (Some df) (tick_reads w)) /\
      (navigation e = "Overview" ->
       faults e 47 = None ->
       fst (cycle e w) = Ok tt /\
       errors_of (screen (snd (cycle e w))) = [] /\
       previews_of (screen (snd (cycle e w))) =
         [{| index := firstn 10 (index df);
             columns := columns df;
             data := firstn 10 (data df) |}]))) /\
  (forall df, cache w = Some df -> load_data e w = (Ok df, w)).
Proof.
  split.
  - intros Hc Hf. split.
    + unfold loaded, load_data, st_cache_data, bind, call, pd_read_csv.
      rewrite Hc, Hf.
      intros [Hs | [Hs | [why Hs]]]; rewrite Hs; simpl;
        eexists; repeat split; exact Hc.
    + intros df Hs. split; [apply load_miss; assumption | ].
      intros Hn H47.
      assert (Hl : loaded e w = Ok df)
        by (unfold loaded; rewrite (load_miss e w df Hc Hf Hs); reflexivity).
      destruct (cycle_loaded e w df Hl) as (r & _ & Hcy).
      rewrite Hcy, Hn. clear Hcy Hl Hn Hs Hc Hf.
      change "Overview" with (name Overview). unfold render_page.
      rewrite router_name. destruct e as [files c f]. cbn [faults] in H47.
      vm_compute. rewrite H47. repeat split.
  - intros df Hc. apply load_hit. exact Hc.
Qed.

Lemma loader_contract_witness :
  (exists x,
     loaded (mkEnv (disk (Malformed "Error tokenizing data")) 0 no_faults) boot = Raise x /\
     fst (pd_read_csv "netflix_clean.csv"
            (mkEnv (disk (Malformed "Error tokenizing data")) 0 no_faults) boot) = Raise x /\
     is_Exception x = true /\
     cache (snd (load_data (mkEnv (disk (Malformed "Error tokenizing data")) 0 no_faults) boot))
     = None) /\
  load_data (mkEnv (disk Absent) 0 no_faults) (mkWorld None (Some one_column) 1 Main []) =
    (Ok one_column, mkWorld None (Some one_column) 1 Main []).
Proof.
  split.
  - apply (proj1 (proj1 (loader_contract
                    (mkEnv (disk (Malformed "Error tokenizing data")) 0 no_faults) boot)
                    eq_refl eq_refl)).
    right. right. exists "Error tokenizing data". reflexivity.
  - apply (proj2 (loader_contract (mkEnv (disk Absent) 0 no_faults)
                    (mkWorld None (Some one_column) 1 Main [])) one_column).
    reflexivity.
Defined.

(** ** Independence from the loaded table *)

(** Two runs are compared on the part of the page that [keep] selects; the
    store (cache and read count) and the file system are free to differ. *)
Section Simulation.
Variable keep : element -> bool.

Lemma related_ret {A : Type} (a : A) : related keep (ret a) (ret a).
Proof. intros e1 e2 w1 w2 _ H. split; [reflexivity | exact H]. Qed.

Lemma related_raise {A : Type} (x : exn) : related keep (@raise A x) (@raise A x).
Proof. intros e1 e2 w1 w2 _ H. split; [reflexivity | exact H]. Qed.

Lemma related_bind {A B : Type} (m1 m2 : M A) (k1 k2 : A -> M B) :
  related keep m1 m2 -> (forall a, related keep (k1 a) (k2 a)) ->
  related keep (bind m1 k1) (bind m2 k2).
Proof.
  intros Hm Hk e1 e2 w1 w2 He Hw. unfold bind.
  destruct (Hm e1 e2 w1 w2 He Hw) as [Hr Hs].
  destruct (m1 e1 w1) as [[a1 | x1] u1], (m2 e2 w2) as [[a2 | x2] u2];
    simpl in *; try discriminate.
  - inversion Hr; subst a2. apply Hk; assumption.
  - inversion Hr; subst x2. split; [reflexivity | assumption].
Qed.

Lemma related_call {A : Type} (line : nat) (m1 m2 : M A) :
  related keep m1 m2 -> related keep (call line m1) (call line m2).
Proof.
  intros Hm e1 e2 w1 w2 He Hw. unfold call. rewrite (He line).
  destruct (faults e2 line); [split; [reflexivity | exact Hw] | ].
  apply Hm; assumption.
Qed.

Lemma related_with {A : Type} (c : container) (m1 m2 : M A) :
  related keep m1 m2 -> related keep (with_ c m1) (with_ c m2).
Proof.
  intros Hm e1 e2 w1 w2 He Hw. unfold with_.
  destruct Hw as (Hp & Hc & Hs).
  assert (Hw' : similar keep (set_cur c w1) (set_cur c w2))
    by (repeat split; assumption).
  destruct (Hm e1 e2 _ _ He Hw') as [Hr (Hp' & _ & Hs')].
  destruct (m1 e1 (set_cur c w1)) as [r1 u1], (m2 e2 (set_cur c w2)) as [r2 u2].
  simpl in *. repeat split; assumption.
Qed.

Lemma related_emit_in (c : container) (x : widget) :
  related keep (emit_in c x) (emit_in c x).
Proof.
  intros e1 e2 w1 w2 _ (Hp & Hc & Hs). split; [reflexivity | ].
  repeat split; simpl; try assumption.
  rewrite !filter_app, Hs. reflexivity.
Qed.

Lemma related_emit (x : widget) : related keep (emit x) (emit x).
Proof.
  intros e1 e2 w1 w2 He Hw. unfold emit.
  destruct Hw as (Hp & Hc & Hs). rewrite Hc.
  apply related_emit_in; [exact He | repeat split; assumption].
Qed.

(** Two elements that [keep] drops may differ. *)
Lemma related_emit_dropped (x1 x2 : widget) :
  (forall c, keep (c, x1) = false) -> (forall c, keep (c, x2) = false) ->
  related keep (emit x1) (emit x2).
Proof.
  intros H1 H2 e1 e2 w1 w2 _ (Hp & Hc & Hs). split; [reflexivity | ].
  repeat split; simpl; try assumption.
  rewrite !filter_app. simpl. rewrite H1, H2, Hs. reflexivity.
Qed.

Lemma related_try (b1 b2 : M unit) (h1 h2 : exn -> M unit) :
  related keep b1 b2 -> (forall x, related keep (h1 x) (h2 x)) ->
  related keep (try_except_Exception b1 h1) (try_except_Exception b2 h2).
Proof.
  intros Hb Hh e1 e2 w1 w2 He Hw. unfold try_except_Exception.
  destruct (Hb e1 e2 w1 w2 He Hw) as [Hr Hs].
  destruct (b1 e1 w1) as [[[] | x1] u1], (b2 e2 w2) as [[[] | x2] u2];
    simpl in *; try discriminate.
  - split; [reflexivity | exact Hs].
  - inversion Hr; subst x2.
    destruct (is_Exception x1); [apply Hh; assumption | split; assumption].
Qed.

Ltac simulate :=
  repeat first
    [ apply related_ret
    | apply related_raise
    | apply related_call
    | apply related_with
    | apply related_emit_in
    | apply related_emit
    | apply related_bind; [ | intros ? ]
    | match goal with
      | |- related keep (match ?l with _ => _ end) _ => destruct l
      end ].

Lemma related_exploratory : related keep exploratory exploratory.
Proof.
  unfold exploratory, st_columns, plt_subplots, sns_barplot, sns_lineplot,
    plt_title.
  simulate.
Qed.

Lemma related_clustering : related keep clustering clustering.
Proof. unfold clustering. simulate. Qed.

Lemma related_prediction : related keep prediction prediction.
Proof. unfold prediction, st_columns. simulate. Qed.

Lemma related_recommendations : related keep recommendations recommendations.
Proof. unfold recommendations. simulate. Qed.

Lemma related_on_error x : related keep (on_error x) (on_error x).
Proof. unfold on_error. apply related_emit. Qed.

(** The tables the two runs have loaded. *)
Variables df1 df2 : DataFrame.

Lemma related_overview :
  previews_dropped keep df1 df2 -> related keep (overview df1) (overview df2).
Proof.
  intros H. unfold overview, st_columns.
  apply related_bind; [apply related_emit | intros _].
  apply related_bind; [apply related_ret | intros cols].
  destruct cols as [ | c1 [ | c2 [ | c3 [ | c4 cols]]]]; try apply related_raise.
  do 6 (apply related_bind; [simulate | intros _]).
  apply related_call.
  destruct H as [H | H].
  - rewrite H. apply related_emit.
  - apply related_emit_dropped; intros c; apply H.
Qed.

Lemma related_view (b : branch) :
  (b = Overview -> previews_dropped keep df1 df2) -> related keep (view df1 b) (view df2 b).
Proof.
  intros H. destruct b; simpl.
  - apply related_overview. apply H. reflexivity.
  - apply related_exploratory.
  - apply related_clustering.
  - apply related_prediction.
  - apply related_recommendations.
Qed.

Lemma related_render_page (page : string) :
  (page = "Overview" -> previews_dropped keep df1 df2) ->
  related keep (render_page page df1) (render_page page df2).
Proof.
  intros H. unfold render_page, router.
  destruct (String.eqb_spec page "Overview") as [E | _].
  - apply related_view. intros _. apply H. exact E.
  - repeat match goal with
           | |- related keep (if ?c then _ else _) _ =>
               destruct c; [apply related_view; discriminate | ]
           end.
    apply related_ret.
Qed.
End Simulation.

Lemma filter_all {A : Type} (l : list A) : filter (fun _ => true) l = l.
Proof. induction l as [ | a l IH]; simpl; [ | rewrite IH]; reflexivity. Qed.




(** * Further properties of the script *)

(** ** The pages, branch by branch *)

(** A cycle whose load returned and whose navigation value names the arm
    [b] is the body of that arm run under the handler. *)
Lemma cycle_on_branch e w df b :
  loaded e w = Ok df ->
  navigation e = name b ->
  exists r,
    (r = reads w \/ r = S (reads w)) /\
    cycle e w =
    try_except_Exception (view df b) on_error e
      (mkWorld config (Some df) r Main chrome).
Proof.
  intros H Hn. destruct (cycle_loaded e w df H) as (r & Hr & Hc).
  exists r. split; [exact Hr | ].
  rewrite Hc, Hn. unfold render_page. rewrite router_name. reflexivity.
Qed.

(** Unfolds the body of an arm down to the calls whose outcome the
    environment decides. *)
Ltac run_arm :=
  cbv beta iota delta [view];
  unfold try_except_Exception, overview, exploratory, clustering, prediction,
    recommendations, unpack_error, with_, bind, st_columns, ret, raise, emit,
    emit_in, call, set_screen, set_cur, plt_subplots, sns_barplot,
    sns_lineplot, plt_title;
  cbv beta iota delta [map seq cur screen page_config cache reads].

Lemma chart_lines_quiet e :
  (forall line, In line chart_lines -> faults e line = None) ->
  faults e 56 = None /\ faults e 57 = None /\ faults e 58 = None /\
  faults e 64 = None /\ faults e 65 = None /\ faults e 66 = None /\
  faults e 72 = None /\ faults e 73 = None /\ faults e 74 = None /\
  faults e 75 = None.
Proof.
  intros H. unfold chart_lines in H.
  repeat split; apply H; cbn [In]; tauto.
Qed.

(** X1: when the load returned, the navigation value is Exploratory
    Analysis and none of the chart calls of lines 56-75 raises, the page is
    the header, a caption, a figure and an info box in each of two columns,
    then the trend caption, figure and text.  The figures are drawn from the
    literals alone: the show/movie bars, one bar per entry of [genre_data]
    (counts on x, names on y) and one point per entry of [release_data]
    under the title of line 74; every plot has as many x as y values. *)
Theorem exploratory_page (e : env) (w : world) (df : DataFrame) :
  loaded e w = Ok df ->
  navigation e = "Exploratory Analysis" ->
  (forall line, In line chart_lines -> faults e line = None) ->
  fst (cycle e w) = Ok tt /\
  screen (snd (cycle e w)) =
    chrome ++
    [(Main, Header exploratory_header);
     (Column 0 2, Write "#### Movies vs TV Shows");
     (Column 0 2,
      Pyplot (mkFigure None
                [Bar [CStr "TV Show"; CStr "Movie"] [CInt 2578; CInt 6128] "viridis"]
                None));
     (Column 0 2, Info split_principle);
     (Column 1 2, Write "#### Top 10 Genres");
     (Column 1 2,
      Pyplot (mkFigure None
                [Bar (map CInt (values genre_data)) (map CStr (keys genre_data)) "magma"]
                None));
     (Column 1 2, Info genre_strategy);
     (Main, Write "#### Content Release Trend (Supply Trend)");
     (Main,
      Pyplot (mkFigure (Some (12, 5)%Z)
                [Line (map CInt (keys release_data)) (map CInt (values release_data)) "o"]
                (Some "Content Supply Trend Over Time")));
     (Main, Markdown trend_interpretation)] /\
  Forall (fun f =>
            Forall (fun p => match p with
                             | Bar x y _ => length x = length y
                             | Line x y _ => length x = length y
                             end) (plots f))
         (figures_of (screen (snd (cycle e w)))).
Proof.
  intros H Hn Hq.
  destruct (cycle_on_branch e w df Exploratory_Analysis H Hn) as (r & _ & Hc).
  destruct (chart_lines_quiet e Hq)
    as (H56 & H57 & H58 & H64 & H65 & H66 & H72 & H73 & H74 & H75).
  rewrite Hc. clear Hc. run_arm.
  rewrite H56, H57, H58, H64, H65, H66, H72, H73, H74, H75.
  split; [reflexivity | ]. split; [reflexivity | ].
  vm_compute. repeat constructor.
Qed.

Lemma exploratory_page_witness :
  fst (cycle (mkEnv (disk (Parses sample)) 1 no_faults) boot) = Ok tt /\
  length (figures_of (screen (snd (cycle (mkEnv (disk (Parses sample)) 1 no_faults) boot))))
  = 3%nat.
Proof.
  destruct (exploratory_page (mkEnv (disk (Parses sample)) 1 no_faults) boot sample
              eq_refl eq_refl (fun _ _ => eq_refl)) as (Hok & Hs & _).
  split; [exact Hok | ]. rewrite Hs. reflexivity.
Defined.

(** X2: when the load returned and the navigation value is Strategic
    Recommendations the cycle ends normally and the page is the header and
    the fixed text, for every table and whichever calls the environment
    makes raise: the branch calls nothing that can fail and reads nothing
    from the table. *)
Theorem recommendations_page (e : env) (w : world) (df : DataFrame) :
  loaded e w = Ok df ->
  navigation e = "Strategic Recommendations" ->
  fst (cycle e w) = Ok tt /\
  screen (snd (cycle e w)) =
    chrome ++
    [(Main, Header recommendations_header);
     (Main, Markdown recommendations_text)].
Proof.
  intros H Hn.
  destruct (cycle_on_branch e w df Strategic_Recommendations H Hn) as (r & _ & Hc).
  rewrite Hc. split; reflexivity.
Qed.

Lemma recommendations_page_witness :
  screen (snd (cycle (mkEnv (disk (Parses sample)) 4 no_faults) boot)) =
    chrome ++
    [(Main, Header recommendations_header);
     (Main, Markdown recommendations_text)].
Proof.
  apply (recommendations_page (mkEnv (disk (Parses sample)) 4 no_faults) boot sample
           eq_refl eq_refl).
Defined.

Lemma page_lines_quiet e :
  (forall line, In line page_lines -> faults e line = None) ->
  faults e 47 = None /\ faults e 95 = None /\
  (forall line, In line chart_lines -> faults e line = None).
Proof.
  intros H. split; [ | split].
  - apply H. left. reflexivity.
  - apply H. unfold page_lines. right. apply in_or_app. right. left. reflexivity.
  - intros line Hl. apply H. unfold page_lines. right. apply in_or_app.
    left. exact Hl.
Qed.

(** X3: when the load returned and none of the data and chart calls of the
    pages raises, the cycle ends normally without an error box, whichever
    page the radio selects: the script raises nothing of its own, and each
    unpacking of [st.columns] asks for as many columns as it binds. *)
Theorem quiet_cycle_succeeds (e : env) (w : world) (df : DataFrame) :
  loaded e w = Ok df ->
  (forall line, In line page_lines -> faults e line = None) ->
  fst (cycle e w) = Ok tt /\ errors_of (screen (snd (cycle e w))) = [].
Proof.
  intros H Hq.
  destruct (page_lines_quiet e Hq) as (H47 & H95 & Hch).
  destruct (chart_lines_quiet e Hch)
    as (H56 & H57 & H58 & H64 & H65 & H66 & H72 & H73 & H74 & H75).
  destruct (in_pages_name _ (navigation_in_pages e)) as [b Hb].
  destruct (cycle_on_branch e w df b H Hb) as (r & _ & Hc).
  rewrite Hc. clear Hc H Hq Hch Hb.
  destruct e as [files c f]. cbn [faults] in *.
  destruct b; vm_compute;
    rewrite ?H47, ?H95, ?H56, ?H57, ?H58, ?H64, ?H65, ?H66, ?H72, ?H73, ?H74, ?H75;
    split; reflexivity.
Qed.

Lemma quiet_cycle_succeeds_witness :
  fst (cycle (mkEnv (disk (Parses one_column)) 2 no_faults) boot) = Ok tt /\
  errors_of (screen (snd (cycle (mkEnv (disk (Parses one_column)) 2 no_faults) boot))) = [].
Proof.
  apply (quiet_cycle_succeeds (mkEnv (disk (Parses one_column)) 2 no_faults) boot
           one_column eq_refl (fun _ _ => eq_refl)).
Defined.

(** X4: the preview of the Overview page is [df.head(10)] of the loaded
    table: it keeps the columns, has the first ten rows when the table has
    more and all of them otherwise, so that a table of at most ten rows,
    the empty one included, is shown whole. *)
Theorem preview_rows (e : env) (w : world) (df : DataFrame) :
  loaded e w = Ok df ->
  navigation e = "Overview" ->
  faults e 47 = None ->
  exists p,
    previews_of (screen (snd (cycle e w))) = [p] /\
    columns p = columns df /\
    data p = firstn 10 (data df) /\
    length (data p) = Nat.min 10 (length (data df)) /\
    ((length (data df) <= 10)%nat -> (length (index df) <= 10)%nat -> p = df).
Proof.
  intros H Hn Hf.
  destruct (cycle_on_branch e w df Overview H Hn) as (r & _ & Hc).
  exists (head 10 df). rewrite Hc. clear Hc. run_arm. rewrite Hf.
  split; [reflexivity | ]. split; [reflexivity | ]. split; [reflexivity | ].
  split; [apply length_firstn | ].
  intros Hd Hi. unfold head. destruct df as [ix cs rows].
  cbn [index columns data] in *.
  rewrite (firstn_all2 rows Hd), (firstn_all2 ix Hi). reflexivity.
Qed.

Lemma preview_rows_witness :
  exists p,
    previews_of (screen (snd (cycle (mkEnv (disk (Parses one_column)) 0 no_faults) boot)))
    = [p] /\
    columns p = columns one_column /\
    data p = firstn 10 (data one_column) /\
    length (data p) = Nat.min 10 (length (data one_column)) /\
    ((length (data one_column) <= 10)%nat -> (length (index one_column) <= 10)%nat ->
     p = one_column).
Proof.
  apply (preview_rows (mkEnv (disk (Parses one_column)) 0 no_faults) boot one_column
           eq_refl eq_refl eq_refl).
Defined.

(** ** The store across cycles *)

Lemma loaded_raises_cold e w x : loaded e w = Raise x -> cache w = None.
Proof.
  unfold loaded, load_data, st_cache_data. destruct (cache w); [discriminate | reflexivity].
Qed.

(** The handler and the escape leave the store as the body left it. *)
Lemma try_store body e w :
  same_store (snd (body e w)) (snd (try_except_Exception body on_error e w)).
Proof.
  unfold try_except_Exception.
  destruct (body e w) as [[[] | x] w1]; simpl; [apply same_store_refl | ].
  destruct (is_Exception x); split; reflexivity.
Qed.

Lemma load_data_reads e w :
  reads (snd (load_data e w)) = if reads_storage e w then S (reads w) else reads w.
Proof.
  unfold reads_storage, load_data, st_cache_data, bind, call, pd_read_csv.
  destruct (cache w); [reflexivity | ].
  destruct (faults e 23); [reflexivity | ].
  destruct (fs e "netflix_clean.csv"); reflexivity.
Qed.

(** After the load the body of the [try] leaves the store alone. *)
Lemma dashboard_store e w :
  same_store (snd (load_data e w)) (snd (dashboard e w)).
Proof.
  unfold dashboard. destruct (load_data e w) as [[df | x] w1] eqn:E.
  - rewrite (bind_Ok _ _ _ _ _ _ E). simpl.
    apply respects_after_load.
    + exact same_store_refl.
    + exact same_store_trans.
    + exact same_store_with.
    + intros c y w0 _. apply same_store_emit.
  - rewrite (bind_Raise _ _ _ _ _ _ E). apply same_store_refl.
Qed.

(** The store after a cycle is the store after its load. *)
Lemma cycle_store e w :
  same_store (snd (load_data e (at_try w))) (snd (cycle e w)).
Proof.
  rewrite cycle_script. fold masthead. fold (at_try w).
  apply same_store_trans with (snd (dashboard e (at_try w))).
  - apply dashboard_store.
  - apply try_store.
Qed.

Lemma cycle_reads e w :
  reads (snd (cycle e w)) = if reads_storage e w then S (reads w) else reads w.
Proof.
  destruct (cycle_store e w) as [_ Hr]. rewrite Hr.
  apply (load_data_reads e (at_try w)).
Qed.

Lemma cycle_cache_loaded e w df :
  loaded e w = Ok df -> cache (snd (cycle e w)) = Some df.
Proof.
  intros H. destruct (cycle_store e w) as [Hc _]. rewrite Hc.
  assert (H0 : loaded e (at_try w) = Ok df)
    by (rewrite <- H; apply loaded_cache; reflexivity).
  destruct (load_data_world e (at_try w)) as (c & r & Hw & _ & Hd).
  rewrite Hw. simpl. apply Hd. exact H0.
Qed.

Lemma cycle_cache_raised e w x :
  loaded e w = Raise x -> cache (snd (cycle e w)) = None.
Proof.
  intros H. destruct (cycle_store e w) as [Hc _]. rewrite Hc.
  assert (H0 : loaded e (at_try w) = Raise x)
    by (rewrite <- H; apply loaded_cache; reflexivity).
  destruct (dashboard_load_raises e (at_try w) x H0) as [r Hd].
  destruct (dashboard_store e (at_try w)) as [Hc' _].
  rewrite <- Hc', Hd. simpl. apply (loaded_raises_cold e w x H).
Qed.

Lemma session_reads_bound es : forall w,
  (reads w <= reads (session es w) <= reads w + length es)%nat.
Proof.
  induction es as [ | e es IH]; intros w; simpl.
  - lia.
  - specialize (IH (snd (cycle e w))). fold (session es (snd (cycle e w))).
    rewrite (cycle_reads e w) in IH. destruct (reads_storage e w); lia.
Qed.

(** X5: a load that raises caches nothing, whether the handler catches the
    exception or not: the next cycle reads storage again, and when the file
    then parses the dashboard recovers, returning and caching the table. *)
Theorem failed_load_is_retried (e1 : env) (w : world) (x : exn) :
  loaded e1 w = Raise x ->
  cache (snd (cycle e1 w)) = None /\
  forall (e2 : env) (df : DataFrame),
    faults e2 23 = None ->
    fs e2 "netflix_clean.csv" = Parses df ->
    reads_storage e2 (snd (cycle e1 w)) = true /\
    loaded e2 (snd (cycle e1 w)) = Ok df /\
    cache (snd (cycle e2 (snd (cycle e1 w)))) = Some df.
Proof.
  intros H. pose proof (cycle_cache_raised e1 w x H) as Hc.
  split; [exact Hc | ]. intros e2 df Hf Hs.
  assert (Hl : loaded e2 (snd (cycle e1 w)) = Ok df).
  { unfold loaded. rewrite (load_miss e2 _ df Hc Hf Hs). reflexivity. }
  split; [unfold reads_storage; rewrite Hc, Hf; reflexivity | ].
  split; [exact Hl | ]. apply cycle_cache_loaded. exact Hl.
Qed.

Lemma failed_load_is_retried_witness :
  cache (snd (cycle (mkEnv (disk Absent) 0 no_faults) boot)) = None /\
  forall (e2 : env) (df : DataFrame),
    faults e2 23 = None ->
    fs e2 "netflix_clean.csv" = Parses df ->
    reads_storage e2 (snd (cycle (mkEnv (disk Absent) 0 no_faults) boot)) = true /\
    loaded e2 (snd (cycle (mkEnv (disk Absent) 0 no_faults) boot)) = Ok df /\
    cache (snd (cycle e2 (snd (cycle (mkEnv (disk Absent) 0 no_faults) boot)))) = Some df.
Proof.
  apply (failed_load_is_retried (mkEnv (disk Absent) 0 no_faults) boot
           (Exc "FileNotFoundError"
              "[Errno 2] No such file or directory: 'netflix_clean.csv'")).
  reflexivity.
Defined.

(** X6: a cycle executes [pd.read_csv] once when the cache is empty and the
    call is not made to raise before it starts, and not at all otherwise;
    rendering never reads storage.  A session of n cycles therefore reads
    storage at most n times. *)
Theorem storage_read_at_most_once_per_cycle (e : env) (w : world) :
  reads (snd (cycle e w)) = (if reads_storage e w then S (reads w) else reads w) /\
  forall es : list env,
    (reads w <= reads (session es w) <= reads w + length es)%nat.
Proof.
  split; [apply cycle_reads | ]. intros es. apply session_reads_bound.
Qed.

(** X7: a table the load returned is in the cache when the cycle ends,
    whatever the page does afterwards: a chart call that raises, caught or
    not, does not lose it, and the next cycle, under any environment, does
    not read storage. *)
Theorem loaded_table_survives_rendering (e : env) (w : world) (df : DataFrame) :
  loaded e w = Ok df ->
  cache (snd (cycle e w)) = Some df /\
  forall e' : env,
    loaded e' (snd (cycle e w)) = Ok df /\
    reads (snd (cycle e' (snd (cycle e w)))) = reads (snd (cycle e w)).
Proof.
  intros H. pose proof (cycle_cache_loaded e w df H) as Hc.
  split; [exact Hc | ]. intros e'. split.
  - unfold loaded. rewrite (load_hit e' _ df Hc). reflexivity.
  - apply (cycle_hit_same_store e' _ df Hc).
Qed.

Lemma loaded_table_survives_rendering_witness :
  cache (snd (cycle subplots_raises boot)) = Some sample /\
  forall e' : env,
    loaded e' (snd (cycle subplots_raises boot)) = Ok sample /\
    reads (snd (cycle e' (snd (cycle subplots_raises boot)))) =
    reads (snd (cycle subplots_raises boot)).
Proof.
  apply (loaded_table_survives_rendering subplots_raises boot sample).
  reflexivity.
Defined.

(** ** The outcome of a cycle *)

(** X8: the three ways a cycle ends.  When the body of the [try] returns,
    the cycle ends normally with no error box.  When an instance of
    [Exception] leaves it, the cycle ends normally with exactly one box,
    holding the text of that exception.  When anything else leaves it, the
    exception leaves the script and no box is shown. *)
Theorem cycle_outcome (e : env) (w : world) :
  fst (cycle e w) =
    match raised_in_try e w with
    | None => Ok tt
    | Some x => if is_Exception x then Ok tt else Raise x
    end /\
  errors_of (screen (snd (cycle e w))) =
    match raised_in_try e w with
    | None => []
    | Some x => if is_Exception x then [error_text x] else []
    end.
Proof.
  destruct (dashboard_at_try e w) as (Hs & He & _).
  destruct (raised_in_try e w) as [x | ] eqn:Hr.
  - destruct (is_Exception x) eqn:Hx.
    + destruct (cycle_caught e w x Hr Hx) as [Hok Hsc].
      split; [exact Hok | ]. rewrite Hsc, !errors_of_app, He. reflexivity.
    + rewrite (cycle_escapes e w x Hr Hx). simpl.
      split; [reflexivity | ]. rewrite Hs, errors_of_app, He. reflexivity.
  - rewrite (cycle_returns e w Hr). simpl.
    split; [reflexivity | ]. rewrite Hs, errors_of_app, He. reflexivity.
Qed.

Lemma no_error_in s c m : errors_of s = [] -> ~ In (c, Error m) s.
Proof.
  induction s as [ | [c' y] s IH]; intros H Hin; [exact Hin | ].
  destruct Hin as [E | Hin].
  - inversion E; subst. discriminate H.
  - apply IH; [ | exact Hin].
    destruct y; simpl in H; try exact H. discriminate H.
Qed.

(** X9: every [with] block gives the current container back, also when
    its body raises: a cycle always ends with the main container current
    and the page configured as line 13 asks, and an error box, wherever the
    exception came from (inside a column block too), is drawn in the main
    container and is the last element of the page. *)
Theorem error_box_in_main (e : env) (w : world) :
  cur (snd (cycle e w)) = Main /\
  page_config (snd (cycle e w)) = config /\
  forall c m,
    In (c, Error m) (screen (snd (cycle e w))) ->
    c = Main /\
    exists before, screen (snd (cycle e w)) = before ++ [(Main, Error m)].
Proof.
  destruct (dashboard_at_try e w) as (Hs & He & Hc).
  destruct (dashboard_paints e (at_try w)) as (_ & Hp & _).
  assert (Hm : forall c m, ~ In (c, Error m) (masthead ++ shown_by_try e w)).
  { intros c m. apply no_error_in. rewrite errors_of_app, He. reflexivity. }
  destruct (raised_in_try e w) as [x | ] eqn:Hr.
  - destruct (is_Exception x) eqn:Hx.
    + assert (Hcy : cycle e w =
                    on_error x e (snd (dashboard e (at_try w)))).
      { rewrite cycle_script. fold masthead. fold (at_try w).
        unfold raised_in_try in Hr.
        destruct (dashboard e (at_try w)) as [[u | y] w1] eqn:E; simpl in Hr;
          [discriminate | ].
        inversion Hr; subst y. apply (try_caught _ _ _ _ _ _ E Hx). }
      rewrite Hcy. unfold on_error, emit, emit_in. simpl.
      split; [exact Hc | ]. split; [exact Hp | ].
      intros c m Hin. rewrite Hc, Hs in Hin |- *.
      apply in_app_or in Hin. destruct Hin as [Hin | [Hin | []]].
      * destruct (Hm c m Hin).
      * inversion Hin; subst. split; [reflexivity | ]. eexists. reflexivity.
    + rewrite (cycle_escapes e w x Hr Hx). simpl.
      split; [exact Hc | ]. split; [exact Hp | ].
      intros c m Hin. rewrite Hs in Hin. destruct (Hm c m Hin).
  - rewrite (cycle_returns e w Hr). simpl.
    split; [exact Hc | ]. split; [exact Hp | ].
    intros c m Hin. rewrite Hs in Hin. destruct (Hm c m Hin).
Qed.

(** ** A warm cache *)

(** Two cycles that both load a table and agree on the radio choice and on
    which calls raise end alike on pages similar under [keep]. *)
Lemma cycles_related keep e1 e2 w1 w2 df1 df2 :
  same_faults e1 e2 -> choice e1 = choice e2 ->
  loaded e1 w1 = Ok df1 -> loaded e2 w2 = Ok df2 ->
  (navigation e1 = "Overview" -> previews_dropped keep df1 df2) ->
  fst (cycle e1 w1) = fst (cycle e2 w2) /\
  similar keep (snd (cycle e1 w1)) (snd (cycle e2 w2)).
Proof.
  intros He Hch H1 H2 Hd.
  destruct (cycle_loaded e1 w1 df1 H1) as (r1 & _ & Hc1).
  destruct (cycle_loaded e2 w2 df2 H2) as (r2 & _ & Hc2).
  assert (Hn : navigation e2 = navigation e1)
    by (unfold navigation; rewrite Hch; reflexivity).
  rewrite Hc1, Hc2, Hn.
  apply (related_try keep _ _ _ _
           (related_render_page keep df1 df2 (navigation e1) Hd)
           (related_on_error keep)
           e1 e2
           (mkWorld config (Some df1) r1 Main chrome)
           (mkWorld config (Some df2) r2 Main chrome) He).
  repeat split.
Qed.

(** X10: once a table is cached a cycle does not depend on the file
    system: two environments with the same radio choice and the same
    raising calls give the same outcome and the same world, whatever is
    stored at the path of the CSV, or nothing. *)
Theorem warm_cycle_ignores_files (e1 e2 : env) (w : world) (df : DataFrame) :
  cache w = Some df ->
  choice e1 = choice e2 ->
  same_faults e1 e2 ->
  cycle e1 w = cycle e2 w.
Proof.
  intros Hc Hch He.
  assert (H1 : loaded e1 w = Ok df)
    by (unfold loaded; rewrite (load_hit e1 w df Hc); reflexivity).
  assert (H2 : loaded e2 w = Ok df)
    by (unfold loaded; rewrite (load_hit e2 w df Hc); reflexivity).
  destruct (cycles_related (fun _ => true) e1 e2 w w df df He Hch H1 H2)
    as [Hr (Hp & Hcu & Hs)].
  { intros _. left. reflexivity. }
  rewrite !filter_all in Hs.
  destruct (cycle_hit_same_store e1 w df Hc) as [Hc1 Hr1].
  destruct (cycle_hit_same_store e2 w df Hc) as [Hc2 Hr2].
  destruct (cycle e1 w) as [o1 [p1 c1 r1 u1 s1]].
  destruct (cycle e2 w) as [o2 [p2 c2 r2 u2 s2]].
  simpl in *. congruence.
Qed.

Lemma warm_cycle_ignores_files_witness :
  cycle (mkEnv (disk Absent) 3 no_faults) (mkWorld None (Some sample) 1 Main []) =
  cycle (mkEnv (disk (Parses one_column)) 3 no_faults)
    (mkWorld None (Some sample) 1 Main []).
Proof.
  apply (warm_cycle_ignores_files
           (mkEnv (disk Absent) 3 no_faults)
           (mkEnv (disk (Parses one_column)) 3 no_faults)
           (mkWorld None (Some sample) 1 Main []) sample eq_refl eq_refl).
  intros line. reflexivity.
Defined.

(** ** The radio and the chain *)


(** ** The table of line 95 *)

Lemma union_keys_app seen ks1 ks2 :
  union_keys seen (ks1 ++ ks2) = union_keys (union_keys seen ks1) ks2.
Proof.
  revert seen. induction ks1 as [ | k ks1 IH]; intros seen; simpl;
    [reflexivity | ].
  destruct (existsb (String.eqb k) seen); apply IH.
Qed.

Lemma union_keys_known seen ks :
  (forall k, In k ks -> In k seen) -> union_keys seen ks = seen.
Proof.
  induction ks as [ | k ks IH]; intros H; simpl; [reflexivity | ].
  assert (Hk : existsb (String.eqb k) seen = true).
  { apply existsb_exists. exists k. split; [apply H; left; reflexivity | ].
    apply String.eqb_refl. }
  rewrite Hk. apply IH. intros k' Hk'. apply H. right. exact Hk'.
Qed.

Lemma union_keys_new ks : forall seen,
  NoDup (seen ++ ks) -> union_keys seen ks = seen ++ ks.
Proof.
  induction ks as [ | k ks IH]; intros seen H; simpl.
  - symmetry. apply app_nil_r.
  - assert (Hk : existsb (String.eqb k) seen = false).
    { destruct (existsb (String.eqb k) seen) eqn:E; [ | reflexivity].
      apply existsb_exists in E. destruct E as (k' & Hin & Heq).
      apply String.eqb_eq in Heq. subst k'.
      apply NoDup_remove_2 in H. destruct H. apply in_or_app. left. exact Hin. }
    rewrite Hk. rewrite IH; rewrite <- app_assoc; [reflexivity | exact H].
Qed.

(** Dicts that all have the keys [ks]: the union of their keys is [ks]. *)
Lemma union_keys_uniform (d : dict string (dict string cell)) ks :
  d <> [] -> NoDup ks ->
  (forall kv, In kv d -> keys (snd kv) = ks) ->
  union_keys [] (concat (map (fun kv => keys (snd kv)) d)) = ks.
Proof.
  intros Hd Hn Hk. destruct d as [ | kv d]; [destruct (Hd eq_refl) | ].
  simpl. rewrite union_keys_app.
  rewrite (Hk kv (or_introl eq_refl)).
  rewrite (union_keys_new ks [] Hn). simpl.
  apply union_keys_known. intros k Hin.
  apply in_concat in Hin. destruct Hin as (l & Hl & Hin).
  apply in_map_iff in Hl. destruct Hl as (kv' & E & Hkv').
  rewrite <- E, (Hk kv' (or_intror Hkv')) in Hin. exact Hin.
Qed.

(** Looking up the keys of a dict, in order, gives its values. *)
Lemma get_keys_values (v : dict string cell) :
  NoDup (keys v) ->
  map (fun r => match get r v with Some c => c | None => CNaN end) (keys v)
  = values v.
Proof.
  induction v as [ | [k c] v IH]; intros H; [reflexivity | ].
  simpl. rewrite String.eqb_refl. f_equal.
  inversion H as [ | k' l Hnot Hnd]; subst.
  rewrite <- (IH Hnd). apply map_ext_in. intros r Hr.
  destruct (String.eqb_spec r k) as [E | _]; [ | reflexivity].
  subst r. destruct (Hnot Hr).
Qed.

(** Reading column after column of the rows built entry by entry gives
    back, entry by entry, the cells built for it. *)
Lemma columns_of_rows {A : Type} (G : string -> A -> cell) (ks : list string) :
  forall d : list A,
    map (fun j => column_at j (map (fun r => map (G r) d) ks)) (seq 0 (length d))
    = map (fun a => map (fun r => G r a) ks) d.
Proof.
  induction d as [ | a d IH]; [reflexivity | ].
  cbn [length]. rewrite <- cons_seq, <- seq_shift. cbn [map]. rewrite map_map.
  f_equal.
  - unfold column_at. rewrite map_map. reflexivity.
  - rewrite <- IH. apply map_ext. intros j.
    unfold column_at. rewrite !map_map. reflexivity.
Qed.

(** X12: what line 95 shows for any summary.  For a non-empty dict of
    dicts whose inner dicts all have the same keys, without repetition,
    [pd.DataFrame(d).T] has one row per outer key, in order, labelled by
    that key, one column per inner key, in order, and each row holds the
    values of its inner dict in that order: no cell is NaN and none is
    moved. *)
Theorem summary_table_rows (d : dict string (dict string cell)) (ks : list string) :
  d <> [] ->
  NoDup ks ->
  (forall kv, In kv d -> keys (snd kv) = ks) ->
  transpose (DataFrame_of_dict d) =
    {| index := map CStr (keys d);
       columns := map CStr ks;
       data := map (fun kv => values (snd kv)) d |}.
Proof.
  intros Hd Hn Hk. unfold transpose, DataFrame_of_dict.
  rewrite (union_keys_uniform d ks Hd Hn Hk).
  cbn [index columns data]. f_equal.
  unfold keys at 1. rewrite !length_map.
  rewrite (columns_of_rows
             (fun r kv => match get r (snd kv) with Some c => c | None => CNaN end)
             ks d).
  apply map_ext_in. intros kv Hin.
  rewrite <- (Hk kv Hin). apply get_keys_values.
  rewrite (Hk kv Hin). exact Hn.
Qed.

Lemma summary_table_rows_witness :
  transpose (DataFrame_of_dict cluster_summary) =
    {| index := map CStr (keys cluster_summary);
       columns := map CStr ["Year"; "Duration"; "Type"; "Segment"];
       data := map (fun kv => values (snd kv)) cluster_summary |}.
Proof.
  apply (summary_table_rows cluster_summary ["Year"; "Duration"; "Type"; "Segment"]).
  - discriminate.
  - repeat constructor; simpl; intuition discriminate.
  - intros kv [E | [E | [E | [E | []]]]]; subst kv; reflexivity.
Defined.

(** ** A failure only truncates the page *)

Lemma loaded_calm e w df : loaded e w = Ok df -> loaded (calm e) w = Ok df.
Proof.
  unfold loaded, load_data, st_cache_data, bind, call, pd_read_csv, calm.
  cbn [faults fs no_faults].
  destruct (cache w); [trivial | ].
  destruct (faults e 23); [discriminate | trivial].
Qed.

(** X13: whichever calls of a page raise, what the body of the [try] has
    put on the page is an initial segment of the page that the same cycle
    shows when no call raises: a failure cuts the page short (and, when
    caught, adds the error box), it never shows anything the page would not
    show and never changes the order. *)
Theorem failure_truncates_page (e : env) (w : world) (df : DataFrame) :
  loaded e w = Ok df ->
  fst (cycle (calm e) w) = Ok tt /\
  exists rest,
    screen (snd (cycle (calm e) w)) = masthead ++ shown_by_try e w ++ rest.
Proof.
  intros H.
  destruct (in_pages_name _ (navigation_in_pages e)) as [b Hb].
  destruct (cycle_on_branch (calm e) w df b (loaded_calm e w df H) Hb)
    as (r' & _ & Hc).
  assert (H0 : loaded e (at_try w) = Ok df)
    by (rewrite <- H; apply loaded_cache; reflexivity).
  destruct (dashboard_loaded e (at_try w) df H0) as (r & _ & Hd).
  unfold shown_by_try. rewrite Hc, Hd, Hb. clear Hc Hd H H0.
  unfold render_page. rewrite router_name. clear Hb.
  destruct e as [files c f]. unfold calm. cbn [faults fs choice].
  destruct b; vm_compute;
    repeat match goal with
           | |- context [f ?n] => destruct (f n); vm_compute
           end;
    (split; [reflexivity | eexists; reflexivity]).
Qed.

Lemma failure_truncates_page_witness :
  fst (cycle (calm subplots_raises) boot) = Ok tt /\
  exists rest,
    screen (snd (cycle (calm subplots_raises) boot)) =
    masthead ++ shown_by_try subplots_raises boot ++ rest.
Proof.
  apply (failure_truncates_page subplots_raises boot sample). reflexivity.
Defined.

(** * Cycles, branches and the loaded table *)

(** ** One branch per cycle *)

Lemma heading_injective b b' : heading b = heading b' -> b = b'.
Proof. destruct b, b'; intros H; (reflexivity || discriminate H). Qed.

(** Whatever raises, the only page header an arm leaves on the page is its
    own. *)
Lemma arm_headers (e : env) (df : DataFrame) (r : nat) (b : branch) :
  page_headers
    (screen (snd (try_except_Exception (view df b) on_error e
                    (mkWorld config (Some df) r Main chrome))))
  = [heading b].
Proof.
  destruct e as [files c f].
  destruct b; vm_compute;
    repeat match goal with
           | |- context [f ?n] =>
               destruct (f n) as [[? ? | ? ?] | ]; vm_compute
           end;
    reflexivity.
Qed.

(** C2, as stated, fails.  In a cycle whose load raises the router is not
    reached: no branch runs, and the page holds the title, the introduction
    and the error box only. *)
Lemma failed_load_runs_no_branch :
  (exists x, loaded (mkEnv (disk Absent) 0 no_faults) boot = Raise x) /\
  page_headers (screen (snd (cycle (mkEnv (disk Absent) 0 no_faults) boot))) = [] /\
  screen (snd (cycle (mkEnv (disk Absent) 0 no_faults) boot)) =
    [(Main, Title title_text); (Main, Markdown intro_text);
     (Main, Error "Error loading dashboard: [Errno 2] No such file or directory: 'netflix_clean.csv'")].
Proof. split; [eexists; reflexivity | split; reflexivity]. Qed.

(** C2, amended: in every render cycle whose load returns, the router runs
    exactly one of the five branches, the one the navigation value names:
    that branch is unique, the cycle is the body of that one branch run
    under the handler on the page that holds the title, the introduction
    and the sidebar, and whichever calls raise the page carries the header
    of that branch and of no other.  In a cycle whose load raises, no
    branch runs. *)
Theorem one_branch_per_cycle (e : env) (w : world) :
  (forall df, loaded e w = Ok df ->
     exists b : branch,
       navigation e = name b /\
       (forall b', navigation e = name b' -> b' = b) /\
       (exists r,
           cycle e w =
           try_except_Exception (view df b) on_error e
             (mkWorld config (Some df) r Main chrome)) /\
       page_headers (screen (snd (cycle e w))) = [heading b] /\
       (forall b', In (Main, Header (heading b')) (screen (snd (cycle e w))) ->
                   b' = b)) /\
  (forall x, loaded e w = Raise x ->
     page_headers (screen (snd (cycle e w))) = []).
Proof.
  split.
  - intros df H.
    destruct (in_pages_name _ (navigation_in_pages e)) as [b Hb].
    destruct (cycle_on_branch e w df b H Hb) as (r & _ & Hc).
    assert (Hh : page_headers (screen (snd (cycle e w))) = [heading b])
      by (rewrite Hc; apply arm_headers).
    exists b. split; [exact Hb | ]. split.
    { intros b' Hb'. apply name_injective. congruence. }
    split; [exists r; exact Hc | ]. split; [exact Hh | ].
    intros b' Hin. apply heading_injective.
    assert (Hin' : In (heading b') (page_headers (screen (snd (cycle e w))))).
    { unfold page_headers. apply in_flat_map.
      exists (Main, Header (heading b')). split; [exact Hin | left; reflexivity]. }
    rewrite Hh in Hin'. destruct Hin' as [E | []]. symmetry. exact E.
  - intros x H.
    destruct (load_raises_in_try e w x H) as [Hr Hn].
    destruct (dashboard_at_try e w) as (Hs & _ & _). rewrite Hn in Hs.
    destruct (is_Exception x) eqn:Hx.
    + destruct (cycle_caught e w x Hr Hx) as [_ Hsc]. rewrite Hsc, Hn. reflexivity.
    + rewrite (cycle_escapes e w x Hr Hx). simpl. rewrite Hs. reflexivity.
Qed.

Lemma one_branch_per_cycle_witness :
  exists b : branch,
    navigation subplots_raises = name b /\
    (forall b', navigation subplots_raises = name b' -> b' = b) /\
    (exists r,
        cycle subplots_raises boot =
        try_except_Exception (view sample b) on_error subplots_raises
          (mkWorld config (Some sample) r Main chrome)) /\
    page_headers (screen (snd (cycle subplots_raises boot))) = [heading b] /\
    (forall b', In (Main, Header (heading b')) (screen (snd (cycle subplots_raises boot))) ->
                b' = b).
Proof.
  apply (proj1 (one_branch_per_cycle subplots_raises boot) sample). reflexivity.
Defined.

(** ** What depends on the loaded table *)






